(** * ignite.handlers.early_stopping

    A shallow embedding of [NoImprovementHandler] and [EarlyStopping]
    (ignite/handlers/early_stopping.py) and the properties of their
    patience counter.

    Conventions of the embedding.
    - A handler object is a record; a method that mutates [self] returns the
      new record.
    - Everything outside the handler (the engines, the logging system, the
      state injected callbacks keep) is the [World]; a Python call is a
      function [World -> outcome A * World], so an exception keeps the
      effects that happened before it.
    - Scores are values of a type carrying the operators the handler applies
      to them ([+], [<=], [>], [<]); the instances are Python's [float]
      (IEEE binary64) and [int].
    - [patience] and [counter] are Python [int]s, that is [Z]. *)

From Stdlib Require Import ZArith Bool List Lia Floats.
From stdpp Require Import gmap strings list.

Local Open Scope Z_scope.
Set Warnings "-inexact-float".

(** ** Exceptions and results *)

Inductive exn : Type :=
| TypeError (msg : string)
| ValueError (msg : string)
| KeyError (key : string)
| StopIteration.

Inductive outcome (A : Type) : Type :=
| Ok (a : A)
| Raise (e : exn).
Arguments Ok {A} a.
Arguments Raise {A} e.

Definition is_TypeError (e : exn) : bool :=
  match e with TypeError _ => true | _ => false end.
Definition is_ValueError (e : exn) : bool :=
  match e with ValueError _ => true | _ => false end.

(** A call with effects on the state [W]: the world for a callback, the
    handler for a method that assigns to [self]. An exception keeps the
    effects made before it. *)
Definition M (W A : Type) : Type := W -> outcome A * W.

#[global] Instance M_ret {W} : MRet (M W) := fun A a w => (Ok a, w).
#[global] Instance M_bind {W} : MBind (M W) := fun A B k m w =>
  match m w with
  | (Ok a, w') => k a w'
  | (Raise e, w') => (Raise e, w')
  end.

(** A computation without effects, and an assignment. *)
Definition lift {W A} (r : outcome A) : M W A := fun w => (r, w).
Definition modify {W} (f : W -> W) : M W unit := fun w => (Ok tt, f w).

(** ** Scores *)

(** The operators of the score type the handler uses. *)
Class Score (score : Type) : Type := {
  score_add : score -> score -> score;   (* x + y *)
  score_le : score -> score -> bool;     (* x <= y *)
  score_gt : score -> score -> bool;     (* x > y *)
  score_lt : score -> score -> bool;     (* x < y *)
  score_zero : score                     (* 0.0 *)
}.

(** The one law of the order the properties below rely on: [x > y] and
    [x <= y] never hold together. *)
Class ScoreOrder (score : Type) `{Score score} : Prop := {
  gt_not_le : forall x y : score, score_gt x y = true -> score_le x y = false
}.

(** Python [float]. *)
#[global] Instance float_Score : Score float := {|
  score_add := PrimFloat.add;
  score_le := PrimFloat.leb;
  score_gt := fun x y => PrimFloat.ltb y x;
  score_lt := PrimFloat.ltb;
  score_zero := 0%float
|}.

(** Python [int]. *)
#[global] Instance int_Score : Score Z := {|
  score_add := Z.add;
  score_le := Z.leb;
  score_gt := Z.gtb;
  score_lt := Z.ltb;
  score_zero := 0
|}.

(** ** Python objects at the boundary *)

Section Values.
Context {score : Type}.

(** A value that is neither a function nor an engine, or that a persisted
    state holds. *)
Inductive pyval : Type :=
| PyNone
| PyInt (z : Z)
| PyScore (x : score)
| PyStr (s : string).

(** An argument that should be a [T]: [callable(f)], respectively
    [isinstance(trainer, Engine)], holds exactly on [Is]. *)
Inductive pyarg (T : Type) : Type :=
| Is (x : T)
| IsNot (v : pyval).
Arguments Is {T} x.
Arguments IsNot {T} v.

(** [callable(f)] *)
Definition callable {T : Type} (f : pyarg T) : bool :=
  match f with
  | Is _ => true
  | IsNot _ => false
  end.

(** [isinstance(trainer, Engine)] *)
Definition isinstance {T : Type} (trainer : pyarg T) : bool :=
  match trainer with
  | Is _ => true
  | IsNot _ => false
  end.

Definition of_best_score (b : option score) : pyval :=
  match b with
  | None => PyNone
  | Some x => PyScore x
  end.

(** The values of a state dict have the types of the fields they persist:
    ["counter"] holds an [int], ["best_score"] an [Optional[float]]. Other
    keys are free. *)
Definition typed (m : gmap string pyval) : bool :=
  match m !! "counter" with
  | None | Some (PyInt _) => true
  | _ => false
  end
  &&
  match m !! "best_score" with
  | None | Some PyNone | Some (PyScore _) => true
  | _ => false
  end.

Record Mapping : Type := {
  items : gmap string pyval;
  items_typed : typed items = true
}.

(** [k in state_dict] *)
Definition contains (sd : Mapping) (k : string) : bool :=
  bool_decide (is_Some (items sd !! k)).

(** [state_dict["counter"]]: a [KeyError] when the key is absent. By
    [items_typed] a key that is present holds an [int], so the last case is
    the absent key only (see [getitem_counter_spec]). *)
Definition getitem_counter (sd : Mapping) : outcome Z :=
  match items sd !! "counter" with
  | Some (PyInt z) => Ok z
  | _ => Raise (KeyError "counter")
  end.

(** [state_dict["best_score"]], likewise. *)
Definition getitem_best_score (sd : Mapping) : outcome (option score) :=
  match items sd !! "best_score" with
  | Some PyNone => Ok None
  | Some (PyScore x) => Ok (Some x)
  | _ => Raise (KeyError "best_score")
  end.

Lemma typed_state (c : Z) (b : option score) :
  typed (<["counter" := PyInt c]> (<["best_score" := of_best_score b]> ∅)) = true.
Proof.
  unfold typed.
  rewrite lookup_insert_eq.
  rewrite lookup_insert_ne by discriminate.
  rewrite lookup_insert_eq.
  destruct b; reflexivity.
Qed.
End Values.
Arguments pyval score : clear implicits.
Arguments Mapping score : clear implicits.
Arguments Is {score T} x.
Arguments IsNot {score T} v.

(** ** NoImprovementHandler *)

Module NoImprovementHandler.
Section Handler.
Context {score : Type} `{Score score}.
Context {World Engine : Type}.

(** The attributes [__init__] sets on [self]. *)
Record handler : Type := {
  patience : Z;
  score_function : Engine -> M World score;
  pass_function : Engine -> M World unit;
  stop_function : Engine -> M World unit;
  trainer : Engine;
  counter : Z;
  best_score : option score;
  min_delta : score;
  cumulative_delta : bool
}.

Definition set_counter (self : handler) (c : Z) : handler :=
  {| patience := patience self;
     score_function := score_function self;
     pass_function := pass_function self;
     stop_function := stop_function self;
     trainer := trainer self;
     counter := c;
     best_score := best_score self;
     min_delta := min_delta self;
     cumulative_delta := cumulative_delta self |}.

Definition set_best_score (self : handler) (b : option score) : handler :=
  {| patience := patience self;
     score_function := score_function self;
     pass_function := pass_function self;
     stop_function := stop_function self;
     trainer := trainer self;
     counter := counter self;
     best_score := b;
     min_delta := min_delta self;
     cumulative_delta := cumulative_delta self |}.

(** [NoImprovementHandler.__init__]: the six checks in the order of the
    source, then the initial attributes. *)
Definition __init__
    (patience : Z)
    (score_function : pyarg (score := score) (Engine -> M World score))
    (pass_function : pyarg (score := score) (Engine -> M World unit))
    (stop_function : pyarg (score := score) (Engine -> M World unit))
    (trainer : pyarg (score := score) Engine)
    (min_delta : score)
    (cumulative_delta : bool) : outcome handler :=
  match score_function with
  | IsNot _ => Raise (TypeError "Argument score_function should be a function.")
  | Is score_function =>
  match pass_function with
  | IsNot _ => Raise (TypeError "Argument pass_function should be a function.")
  | Is pass_function =>
  match stop_function with
  | IsNot _ => Raise (TypeError "Argument stop_function should be a function.")
  | Is stop_function =>
  match trainer with
  | IsNot _ => Raise (TypeError "Argument trainer should be an instance of Engine.")
  | Is trainer =>
  if patience <? 1 then
    Raise (ValueError "Argument patience should be positive integer.")
  else if score_lt min_delta score_zero then
    Raise (ValueError "Argument min_delta should not be a negative number.")
  else
    Ok {| patience := patience;
          score_function := score_function;
          pass_function := pass_function;
          stop_function := stop_function;
          trainer := trainer;
          counter := 0;
          best_score := None;
          min_delta := min_delta;
          cumulative_delta := cumulative_delta |}
  end end end end.

(** [NoImprovementHandler._update_state] *)
Definition _update_state (self : handler) (score : score) : handler :=
  match best_score self with
  | None => set_best_score self (Some score)
  | Some best =>
    if score_le score (score_add best (min_delta self)) then
      let self :=
        if negb (cumulative_delta self) && score_gt score best
        then set_best_score self (Some score)
        else self in
      set_counter self (counter self + 1)
    else
      set_counter (set_best_score self (Some score)) 0
  end.

(** [NoImprovementHandler.__call__]. The result carries the handler as the
    call left it, also when a callback raised. *)
Definition __call__ (self : handler) (engine : Engine)
    : World -> outcome unit * handler * World := fun w =>
  match score_function self engine w with
  | (Raise e, w) => (Raise e, self, w)
  | (Ok score, w) =>
    let self := _update_state self score in
    let '(r, w) :=
      if counter self >=? patience self
      then stop_function self (trainer self) w
      else pass_function self (trainer self) w in
    (r, self, w)
  end.

(** [NoImprovementHandler.state_dict] *)
Definition state_dict (self : handler) : Mapping score :=
  {| items := <["counter" := PyInt (counter self)]>
                (<["best_score" := of_best_score (best_score self)]> ∅);
     items_typed := typed_state (counter self) (best_score self) |}.

(** Modelled from the spec: [Serializable.load_state_dict] of ignite.base,
    the inherited check [load_state_dict] starts with. It requires every key
    of the class attribute [_state_dict_all_req_keys] to be present and
    touches nothing. *)
Definition Serializable_load_state_dict (_state_dict_all_req_keys : list string)
    (state_dict : Mapping score) : outcome unit :=
  match List.find (fun k => negb (contains state_dict k)) _state_dict_all_req_keys with
  | Some k =>
    Raise (ValueError ("Required state attribute '" +:+ k +:+ "' is absent"))
  | None => Ok tt
  end.

(** [NoImprovementHandler.load_state_dict], for a class whose
    [_state_dict_all_req_keys] is the first argument. The two assignments
    happen in turn: a missing ["best_score"] raises after [counter] was
    overwritten. *)
Definition load_state_dict (_state_dict_all_req_keys : list string)
    (state_dict : Mapping score) : M handler unit :=
  _ ← lift (Serializable_load_state_dict _state_dict_all_req_keys state_dict);
  c ← lift (getitem_counter state_dict);
  _ ← modify (fun self => set_counter self c);
  b ← lift (getitem_best_score state_dict);
  modify (fun self => set_best_score self b).

End Handler.
Arguments handler score World Engine : clear implicits.
End NoImprovementHandler.

(** ** EarlyStopping *)

Module EarlyStopping.
Section Handler.
Context {score : Type} `{Score score}.
Context {World Engine Logger : Type}.

(** The collaborators of other modules: [ignite.utils.setup_logger],
    [logging.Logger.info] and [Engine.terminate]. *)
Variable setup_logger : string -> World -> Logger * World.
Variable info : Logger -> string -> M World unit.
Variable terminate : Engine -> M World unit.

(** An [EarlyStopping] object: the attributes of the base class and
    [self.logger]. *)
Record handler : Type := {
  base : NoImprovementHandler.handler score World Engine;
  logger : Logger
}.

Definition _state_dict_all_req_keys : list string := ["counter"; "best_score"].

Definition __name__ : string := "ignite.handlers.early_stopping".

(** [EarlyStopping.pass_function] *)
Definition pass_function (trainer : Engine) : M World unit := mret tt.

(** [EarlyStopping.stop_function]; the first argument is the [self.logger]
    it reads. *)
Definition stop_function (self_logger : Logger) (trainer : Engine) : M World unit :=
  _ ← info self_logger "EarlyStopping: Stop training";
  terminate trainer.

(** [EarlyStopping.__init__], for an object of the class itself
    ([self.__class__.__name__] is ["EarlyStopping"]). The bound methods it
    hands to the base class are callable; [self.stop_function] reads
    [self.logger] when it is called, which by then is the logger the last
    statement assigns. *)
Definition __init__
    (patience : Z)
    (score_function : pyarg (score := score) (Engine -> M World score))
    (trainer : pyarg (score := score) Engine)
    (min_delta : score)
    (cumulative_delta : bool) : M World handler := fun w =>
  let name := __name__ +:+ "." +:+ "EarlyStopping" in
  match
    NoImprovementHandler.__init__ patience score_function
      (Is pass_function) (Is (stop_function (fst (setup_logger name w))))
      trainer min_delta cumulative_delta
  with
  | Raise e => (Raise e, w)
  | Ok h =>
    let '(lg, w) := setup_logger name w in
    (Ok {| base := h; logger := lg |}, w)
  end.

(** [EarlyStopping.__call__] *)
Definition __call__ (self : handler) (engine : Engine)
    : World -> outcome unit * handler * World := fun w =>
  let '(r, h, w) := NoImprovementHandler.__call__ (base self) engine w in
  (r, {| base := h; logger := logger self |}, w).

(** The inherited [state_dict] and [load_state_dict]. *)
Definition state_dict (self : handler) : Mapping score :=
  NoImprovementHandler.state_dict (base self).

Definition load_state_dict (state_dict : Mapping score) : M handler unit := fun self =>
  let '(r, h) :=
    NoImprovementHandler.load_state_dict _state_dict_all_req_keys state_dict (base self) in
  (r, {| base := h; logger := logger self |}).

End Handler.
Arguments handler score World Engine Logger : clear implicits.
End EarlyStopping.

(** ** Runs: the handler called event after event *)

Module Run.
Import NoImprovementHandler.
Section Runs.
Context {score : Type} `{Score score}.
Context {World Engine : Type}.

(** Which callback a call ends with. *)
Inductive decision : Type := Continue | Limit.

(** The test of [__call__] on the updated handler. *)
Definition decision_of (self : handler score World Engine) : decision :=
  if counter self >=? patience self then Limit else Continue.

Definition callback (self : handler score World Engine) (d : decision)
    : Engine -> M World unit :=
  match d with
  | Limit => stop_function self
  | Continue => pass_function self
  end.

(** The handler after each of the scores [score_function] returned, call
    after call. *)
Fixpoint feed (self : handler score World Engine) (scores : list score)
    : list (handler score World Engine) :=
  match scores with
  | [] => []
  | s :: scores => let self := _update_state self s in self :: feed self scores
  end.

Definition decisions (self : handler score World Engine) (scores : list score)
    : list decision :=
  map decision_of (feed self scores).

(** Each score exceeds the one before it by more than [min_delta]. *)
Fixpoint increasing (min_delta : score) (scores : list score) : Prop :=
  match scores with
  | [] => True
  | s :: rest =>
    match rest with
    | [] => True
    | s' :: _ => score_gt s' (score_add s min_delta) = true
    end /\ increasing min_delta rest
  end.

(** The engine fires the handler once per event, with the engine of the
    event; an exception ends the run. The result lists the handler after
    each call made. *)
Fixpoint calls (self : handler score World Engine) (engines : list Engine) (w : World)
    : list (handler score World Engine) * outcome unit * World :=
  match engines with
  | [] => ([], Ok tt, w)
  | engine :: engines =>
    match __call__ self engine w with
    | (Raise e, self, w) => ([self], Raise e, w)
    | (Ok _, self, w) =>
      let '(after, r, w) := calls self engines w in (self :: after, r, w)
    end
  end.

(** Two handlers of the same configuration. *)
Definition same_configuration (h1 h2 : handler score World Engine) : Prop :=
  patience h1 = patience h2 /\
  min_delta h1 = min_delta h2 /\
  cumulative_delta h1 = cumulative_delta h2.

End Runs.

(** A world that only records the calls made, with callbacks like those of
    a test: the score function hands out the next of a list of scores, the
    two others leave a mark. *)
Section Recorded.
Context {score : Type} `{Score score}.
Context {Engine : Type}.

Inductive call : Type :=
| Scored (engine : Engine)
| Passed (trainer : Engine)
| Stopped (trainer : Engine).

Record recording : Type := {
  pending : list score;
  trace : list call
}.

Definition next_score (engine : Engine) : M recording score := fun w =>
  match pending w with
  | [] => (Raise StopIteration, w)
  | s :: rest => (Ok s, {| pending := rest; trace := trace w ++ [Scored engine] |})
  end.

Definition mark (c : call) : M recording unit := fun w =>
  (Ok tt, {| pending := pending w; trace := trace w ++ [c] |}).

Definition record_pass (trainer : Engine) : M recording unit := mark (Passed trainer).
Definition record_stop (trainer : Engine) : M recording unit := mark (Stopped trainer).

(** What a run on the scores leaves in the trace: per call the mark of the
    score function and the mark of the callback the call ended with. *)
Fixpoint marks {World : Type} (self : handler score World Engine)
    (engines : list Engine) (scores : list score) : list call :=
  match engines, scores with
  | engine :: engines, s :: scores =>
    let self := _update_state self s in
    Scored engine
      :: match decision_of self with
         | Limit => Stopped (trainer self)
         | Continue => Passed (trainer self)
         end
      :: marks self engines scores
  | _, _ => []
  end.

End Recorded.
Arguments call Engine : clear implicits.
Arguments recording score Engine : clear implicits.
End Run.

(** ** Handlers of the tests *)

Module Example.
Import NoImprovementHandler Run.

(** A fresh handler on float scores whose callbacks record their calls,
    watching the engine ["trainer"]. *)
Definition scripted (patience : Z) (min_delta : float) (cumulative_delta : bool)
    : handler float (recording float string) string :=
  {| patience := patience;
     score_function := next_score;
     pass_function := record_pass;
     stop_function := record_stop;
     trainer := "trainer";
     counter := 0;
     best_score := None;
     min_delta := min_delta;
     cumulative_delta := cumulative_delta |}.

(** The world in which the score function will return [scores]. *)
Definition script (scores : list float) : recording float string :=
  {| pending := scores; trace := [] |}.

(** A handler in the middle of a run. *)
Definition at_state (self : handler float (recording float string) string)
    (c : Z) (b : option float) : handler float (recording float string) string :=
  set_best_score (set_counter self c) b.

(** Collaborators for an [EarlyStopping] handler in a world that is the
    list of the lines logged and of the engines told to terminate. *)
Definition log_setup_logger (name : string) (w : list string) : string * list string :=
  (name, w).
Definition log_info (logger msg : string) : M (list string) unit := fun w =>
  (Ok tt, w ++ [logger +:+ ": " +:+ msg]).
Definition log_terminate (trainer : string) : M (list string) unit := fun w =>
  (Ok tt, w ++ ["terminate " +:+ trainer]).

(** A state dict as a checkpoint may hold it: a counter below zero, a best
    score, and a key of someone else. *)
Definition checkpoint : Mapping float :=
  {| items := <["counter" := PyInt (-7)]>
                (<["best_score" := PyScore 2.5%float]>
                   (<["epoch" := PyInt 12]> ∅));
     items_typed := eq_refl |}.

(** A score function that reads nothing and reports the same score. *)
Definition constant_score (x : float) (engine : string) : M (list string) float :=
  fun w => (Ok x, w).

End Example.

(** ** Shapes of score sequences *)

Module Shape.
Section Shapes.
Context {score : Type} `{Score score}.

(** Small improvements in a row, starting from the score [best]: each score
    is above the one before it, by no more than [min_delta]. *)
Fixpoint drifting (min_delta best : score) (scores : list score) : Prop :=
  match scores with
  | [] => True
  | s :: rest =>
    score_gt s best = true /\
    score_le s (score_add best min_delta) = true /\
    drifting min_delta s rest
  end.

End Shapes.
End Shape.

(** ** docs/source/conf.py: the autosummary directive with autolisting *)

Module Conf.

(** The exceptions of this file, and what a call returns. *)
Inductive error : Type :=
| AttributeError (name : string)
| NotImplementedError
| ModuleNotFoundError (name : string).

Inductive result (A : Type) : Type :=
| Done (a : A)
| Raised (e : error).
Arguments Done {A} a.
Arguments Raised {A} e.

#[global] Instance result_ret : MRet result := fun A a => Done a.
#[global] Instance result_bind : MBind result := fun A B k r =>
  match r with
  | Done a => k a
  | Raised e => Raised e
  end.

(** What the directive looks at in an attribute of a module: whether it is
    a class, a function or something else, its [__module__] and its
    [__doc__]. *)
Inductive kind : Type := Class | Function | Other.

Record object : Type := {
  kind_of : kind;
  __module__ : option string;
  __doc__ : option string
}.

(** [inspect.isclass], [inspect.isfunction] *)
Definition isclass (o : object) : bool :=
  match kind_of o with Class => true | _ => false end.
Definition isfunction (o : object) : bool :=
  match kind_of o with Function => true | _ => false end.

(** An imported module: its [__all__], when it defines one, and its
    attributes as [inspect.getmembers(module)] lists them, pairs of a name
    and a value sorted by name. *)
Record pymodule : Type := {
  __all__ : option (list string);
  members : list (string * object)
}.

(** [getattr(module, name)] *)
Definition getattr (module : pymodule) (name : string) : result object :=
  match List.find (fun m => String.eqb (fst m) name) (members module) with
  | Some m => Done (snd m)
  | None => Raised (AttributeError name)
  end.

(** [inspect.getmembers(module, predicate)] *)
Definition getmembers (module : pymodule) (predicate : object -> bool)
    : list (string * object) :=
  List.filter (fun m => predicate (snd m)) (members module).

(** [name.startswith(prefix)] *)
Definition startswith (name prefix : string) : bool := String.prefix prefix name.

(** A list comprehension [[name for name in names if keep(name)]] whose
    condition may raise: the first name on which it raises ends the
    comprehension. *)
Fixpoint comprehension (keep : string -> result bool) (names : list string)
    : result (list string) :=
  match names with
  | [] => Done []
  | name :: names =>
    b ← keep name;
    rest ← comprehension keep names;
    mret (if b : bool then name :: rest else rest)
  end.

(** The condition of the two comprehensions over [getmembers]:
    [name[-1].__module__ == module_name and not name[0].startswith("_")]. *)
Definition defined_public (module_name : option string) (m : string * object) : bool :=
  bool_decide (__module__ (snd m) = module_name) && negb (startswith (fst m) "_").

(** The names before the filters: [__all__], or the public classes then
    the public functions defined in the module, or every member when there
    is none of those. *)
Definition public_names (module_name : option string) (module : pymodule)
    : list string :=
  match __all__ module with
  | Some names => names
  | None =>
    let cls_names :=
      map fst (List.filter (defined_public module_name) (getmembers module isclass)) in
    let fn_names :=
      map fst (List.filter (defined_public module_name) (getmembers module isfunction)) in
    let names := cls_names ++ fn_names in
    match names with
    | [] => map fst (getmembers module (fun _ => true))
    | _ => names
    end
  end.

(** The body of the loop of [run] from "Get public names" on, for the
    option [auto]: the names the directive will list. *)
Definition autolist_names (auto : string) (module_name : option string)
    (module : pymodule) : result (list string) :=
  let names := public_names module_name module in
  names ← comprehension
            (fun name => o ← getattr module name;
                         mret (bool_decide (__doc__ o <> None))) names;
  if String.eqb auto "autolist" then
    comprehension
      (fun name => o ← getattr module name;
                   if isclass o then mret true
                   else o ← getattr module name; mret (isfunction o)) names
  else
    check ← (if String.eqb auto "autolist-classes" then mret isclass
             else if String.eqb auto "autolist-functions" then mret isfunction
             else Raised NotImplementedError);
    comprehension (fun name => o ← getattr module name; mret (check o)) names.

(** The three options the loop of [run] goes through, and the second filter
    of the loop as one condition per option. *)
Definition is_option (auto : string) : Prop :=
  auto = "autolist" \/ auto = "autolist-classes" \/ auto = "autolist-functions".

Definition wanted (auto : string) (o : object) : bool :=
  if String.eqb auto "autolist" then isclass o || isfunction o
  else if String.eqb auto "autolist-classes" then isclass o
  else isfunction o.

(** The directive object: [self.options], the current module
    [self.env.ref_context.get("py:module")], and [self.content]. *)
Record directive : Type := {
  options : gmap string string;
  py_module : option string;
  content : list string
}.

Definition set_content (self : directive) (names : list string) : directive :=
  {| options := options self; py_module := py_module self; content := names |}.

Section Run.
Context {Nodes : Type}.

(** [importlib.import_module] and the [run] of the base class
    [sphinx.ext.autosummary.Autosummary]. *)
Variable import_module : option string -> result pymodule.
Variable Autosummary_run : directive -> result Nodes.

(** One round of the loop of [run]. *)
Definition autolist (self : directive) (auto : string) : result directive :=
  if bool_decide (is_Some (options self !! auto)) then
    let module_name := py_module self in
    module ← import_module module_name;
    names ← autolist_names auto module_name module;
    mret (set_content self names)
  else mret self.

Fixpoint for_each (autos : list string) (self : directive) : result directive :=
  match autos with
  | [] => mret self
  | auto :: autos => self ← autolist self auto; for_each autos self
  end.

(** [AutolistAutosummary.run] *)
Definition run (self : directive) : result Nodes :=
  self ← for_each ["autolist"; "autolist-classes"; "autolist-functions"] self;
  Autosummary_run self.

End Run.
End Conf.

(** ** What makes a record an EarlyStopping object *)

Module Bound.
Section Bound.
Context {score : Type} `{Score score}.
Context {World Engine Logger : Type}.
Variable info : Logger -> string -> M World unit.
Variable terminate : Engine -> M World unit.

(** The two callbacks of the base part are the methods of the object
    itself, [stop_function] reading the object's logger, and [patience] is
    at least 1. *)
Definition bound (self : EarlyStopping.handler score World Engine Logger) : Prop :=
  NoImprovementHandler.pass_function (EarlyStopping.base self)
    = EarlyStopping.pass_function /\
  NoImprovementHandler.stop_function (EarlyStopping.base self)
    = EarlyStopping.stop_function info terminate (EarlyStopping.logger self) /\
  1 <= NoImprovementHandler.patience (EarlyStopping.base self).

End Bound.
End Bound.

(** ** Sample objects for the longer runs and the directive *)

Module Sample.
Import NoImprovementHandler Run Example Conf.

(** A state dict that lost its best score. *)
Definition only_counter : Mapping float :=
  {| items := <["counter" := PyInt 5]> ∅; items_typed := eq_refl |}.

(** An [EarlyStopping] object of patience 2 in the logging world, in the
    middle of a run. *)
Definition stopper (c : Z) (b : option float)
    : EarlyStopping.handler float (list string) string string :=
  {| EarlyStopping.base :=
       {| patience := 2;
          score_function := constant_score 0.5%float;
          pass_function := EarlyStopping.pass_function;
          stop_function := EarlyStopping.stop_function log_info log_terminate "log";
          trainer := "trainer";
          counter := c;
          best_score := b;
          min_delta := 0%float;
          cumulative_delta := false |};
     EarlyStopping.logger := "log" |}.

Definition class_of (module doc : string) : object :=
  {| kind_of := Class; __module__ := Some module; __doc__ := Some doc |}.
Definition function_of (module : string) (doc : option string) : object :=
  {| kind_of := Function; __module__ := Some module; __doc__ := doc |}.

(** The handlers module itself: it exports its two classes. *)
Definition early_stopping : pymodule :=
  {| __all__ := Some ["NoImprovementHandler"; "EarlyStopping"];
     members :=
       [("EarlyStopping", class_of "ignite.handlers.early_stopping" "EarlyStopping handler");
        ("Engine", class_of "ignite.engine.engine" "Runs a given process_function");
        ("NoImprovementHandler",
         class_of "ignite.handlers.early_stopping" "NoImprovementHandler is a generalised version");
        ("OrderedDict", class_of "collections" "Dictionary that remembers insertion order");
        ("setup_logger", function_of "ignite.utils" (Some "Setups logger"))] |}.

(** A module without [__all__]: a class and functions of its own, one of
    them private and one without docstring, and an imported class. *)
Definition plain : pymodule :=
  {| __all__ := None;
     members :=
       [("Engine", class_of "ignite.engine.engine" "Runs a given process_function");
        ("Thing", class_of "plain" "A thing");
        ("_private", function_of "plain" (Some "Not for others"));
        ("helper", function_of "plain" (Some "Helps"));
        ("undocumented", function_of "plain" None)] |}.

(** A module that only imports. *)
Definition reexports : pymodule :=
  {| __all__ := None;
     members :=
       [("Engine", class_of "ignite.engine.engine" "Runs a given process_function");
        ("_setup", function_of "ignite.utils" (Some "Setups"));
        ("version",
         {| kind_of := Other; __module__ := None; __doc__ := Some "str(object)" |})] |}.

(** A module whose [__all__] names something it does not define. *)
Definition broken : pymodule :=
  {| __all__ := Some ["Engine"; "Missing"; "Thing"];
     members :=
       [("Engine", class_of "ignite.engine.engine" "Runs a given process_function")] |}.

(** A directive in the module [plain], with two of the options. *)
Definition two_options : directive :=
  {| options := <["autolist" := ""]> (<["autolist-functions" := ""]> ∅);
     py_module := Some "plain";
     content := ["written by hand"] |}.

End Sample.

(** ** The exact value of a float *)

Module Exact.


End Exact.

(** * Properties *)

(** ** The order of the score types *)

Lemma SFcompare_Lt_flip (a b : spec_float) :
  SFcompare b a = Some Lt -> SFcompare a b = Some Gt.
Proof.
  destruct a as [sa|sa| |sa ma ea], b as [sb|sb| |sb mb eb]; simpl;
    try discriminate;
    try (destruct sa; try destruct sb; simpl; congruence).
  assert (Hm : Pos.compare_cont Eq ma mb = CompOpp (Pos.compare_cont Eq mb ma))
    by (rewrite Pos.compare_cont_antisym; reflexivity).
  rewrite (Z.compare_antisym eb ea), Hm.
  destruct sa, sb; simpl; try congruence;
    destruct (eb ?= ea); simpl; try congruence;
    destruct (Pos.compare_cont Eq mb ma); simpl; congruence.
Qed.

#[global] Instance float_ScoreOrder : ScoreOrder float.
Proof.
  constructor. intros x y. simpl.
  rewrite ltb_spec, leb_spec. unfold SFltb, SFleb.
  destruct (SFcompare (Prim2SF y) (Prim2SF x)) as [[]|] eqn:E; try discriminate.
  intros _. rewrite (SFcompare_Lt_flip _ _ E). reflexivity.
Qed.

#[global] Instance int_ScoreOrder : ScoreOrder Z.
Proof.
  constructor. intros x y. simpl. rewrite Z.gtb_ltb.
  intros Hlt. apply Z.ltb_lt in Hlt. apply Z.leb_gt. exact Hlt.
Qed.

(** ** One call *)

Section OneCall.
Import NoImprovementHandler Run.
Context {score : Type} `{Score score}.
Context {World Engine : Type}.
Implicit Types self : handler score World Engine.

Lemma _update_state_frame self (s : score) :
  patience (_update_state self s) = patience self /\
  score_function (_update_state self s) = score_function self /\
  pass_function (_update_state self s) = pass_function self /\
  stop_function (_update_state self s) = stop_function self /\
  trainer (_update_state self s) = trainer self /\
  min_delta (_update_state self s) = min_delta self /\
  cumulative_delta (_update_state self s) = cumulative_delta self.
Proof.
  unfold _update_state.
  destruct (best_score self) as [best|]; [|repeat split].
  destruct (score_le s (score_add best (min_delta self))); [|repeat split].
  destruct (negb (cumulative_delta self) && score_gt s best); repeat split.
Qed.

(** What a call does once the score function returned [s]: the handler
    becomes [_update_state self s] and the call ends with the callback
    [decision_of] names, run on [self.trainer] in the world the score function
    left. *)
Lemma __call___decision_of self (engine : Engine) (w w1 : World) (s : score) :
  score_function self engine w = (Ok s, w1) ->
  __call__ self engine w =
    (let updated := _update_state self s in
     let '(r, w2) := callback self (decision_of updated) (trainer self) w1 in
     (r, updated, w2)).
Proof.
  intros Hs. unfold __call__. rewrite Hs. cbv zeta.
  destruct (_update_state_frame self s) as (_ & _ & Hp & Hst & Ht & _).
  unfold decision_of, callback. rewrite Hp, Hst, Ht.
  destruct (counter (_update_state self s) >=? patience (_update_state self s));
    reflexivity.
Qed.

(** C1. Once the score is computed and the state updated, [__call__] runs
    exactly one of the two callbacks, on the stored trainer, in the world the
    score function left: [stop_function] when [counter >= patience],
    [pass_function] otherwise. The handler the call leaves is the updated
    one: the decision changes no field, the counter included. *)
Theorem call_runs_one_callback self (engine : Engine) (w w1 : World) (s : score) :
  score_function self engine w = (Ok s, w1) ->
  exists (r : outcome unit) (w2 : World),
    __call__ self engine w = (r, _update_state self s, w2) /\
    (counter (_update_state self s) >= patience self ->
       (r, w2) = stop_function self (trainer self) w1) /\
    (counter (_update_state self s) < patience self ->
       (r, w2) = pass_function self (trainer self) w1).
Proof.
  intros Hs. rewrite (__call___decision_of _ _ _ _ _ Hs). cbv zeta.
  destruct (_update_state_frame self s) as (Hp & _).
  unfold decision_of, callback. rewrite Hp.
  destruct (Z.geb_spec (counter (_update_state self s)) (patience self)) as [Hge|Hlt].
  - destruct (stop_function self (trainer self) w1) as [r w2] eqn:E.
    exists r, w2. split; [reflexivity|]. split; intros; [reflexivity | lia].
  - destruct (pass_function self (trainer self) w1) as [r w2] eqn:E.
    exists r, w2. split; [reflexivity|]. split; intros; [lia | reflexivity].
Qed.

(** C10. A call changes at most [counter] and [best_score]: the
    configuration and the injected objects are those of before, whatever the
    score function and the callbacks did. *)
Theorem call_frame self (engine : Engine) (w : World) :
  let after := snd (fst (__call__ self engine w)) in
  patience after = patience self /\
  min_delta after = min_delta self /\
  cumulative_delta after = cumulative_delta self /\
  score_function after = score_function self /\
  pass_function after = pass_function self /\
  stop_function after = stop_function self /\
  trainer after = trainer self.
Proof.
  unfold __call__.
  destruct (score_function self engine w) as [[s|e] w1]; simpl; [|repeat split].
  destruct (_update_state_frame self s) as (? & ? & ? & ? & ? & ? & ?).
  match goal with |- context [let '(_, _) := ?c in _] => destruct c end.
  simpl. repeat split; assumption.
Qed.

End OneCall.

(** ** The comparison rule *)

Section Update.
Import NoImprovementHandler Run.
Context {score : Type} `{ScoreOrder score}.
Context {World Engine : Type}.
Implicit Types self : handler score World Engine.

Lemma _update_state_first self (s : score) :
  best_score self = None ->
  _update_state self s = set_best_score self (Some s).
Proof. intros Hb. unfold _update_state. rewrite Hb. reflexivity. Qed.

Lemma _update_state_plateau self (s best : score) :
  best_score self = Some best ->
  score_le s (score_add best (min_delta self)) = true ->
  _update_state self s =
    set_counter
      (if negb (cumulative_delta self) && score_gt s best
       then set_best_score self (Some s) else self)
      (counter self + 1).
Proof.
  intros Hb Hle. unfold _update_state. rewrite Hb, Hle.
  destruct (negb (cumulative_delta self) && score_gt s best); reflexivity.
Qed.

Lemma _update_state_else self (s best : score) :
  best_score self = Some best ->
  score_le s (score_add best (min_delta self)) = false ->
  _update_state self s = set_counter (set_best_score self (Some s)) 0.
Proof. intros Hb Hle. unfold _update_state. rewrite Hb, Hle. reflexivity. Qed.

Lemma _update_state_improved self (s best : score) :
  best_score self = Some best ->
  score_gt s (score_add best (min_delta self)) = true ->
  _update_state self s = set_counter (set_best_score self (Some s)) 0.
Proof. intros Hb Hgt. apply (_update_state_else _ _ _ Hb), gt_not_le, Hgt. Qed.

(** C2. The three branches of [_update_state], for every state and score.
    - No best score yet: the score becomes the best one, the counter stays.
    - [score <= best_score + min_delta]: the counter grows by one, and the
      best score becomes the score exactly when [cumulative_delta] is off
      and [score > best_score]; it stays otherwise.
    - Else: the score becomes the best one and the counter is 0. The branch
      is taken whenever [score > best_score + min_delta]. *)
Theorem update_state_rule self (s : score) :
  (best_score self = None ->
     best_score (_update_state self s) = Some s /\
     counter (_update_state self s) = counter self) /\
  (forall best, best_score self = Some best ->
     score_le s (score_add best (min_delta self)) = true ->
     counter (_update_state self s) = counter self + 1 /\
     best_score (_update_state self s) =
       (if negb (cumulative_delta self) && score_gt s best
        then Some s else Some best)) /\
  (forall best, best_score self = Some best ->
     score_le s (score_add best (min_delta self)) = false ->
     best_score (_update_state self s) = Some s /\
     counter (_update_state self s) = 0) /\
  (forall best, best_score self = Some best ->
     score_gt s (score_add best (min_delta self)) = true ->
     best_score (_update_state self s) = Some s /\
     counter (_update_state self s) = 0).
Proof.
  repeat apply conj.
  - intros Hb. rewrite (_update_state_first _ _ Hb). split; reflexivity.
  - intros best Hb Hle. rewrite (_update_state_plateau _ _ _ Hb Hle).
    split; [reflexivity|].
    destruct (negb (cumulative_delta self) && score_gt s best); simpl;
      [reflexivity | exact Hb].
  - intros best Hb Hle. rewrite (_update_state_else _ _ _ Hb Hle).
    split; reflexivity.
  - intros best Hb Hgt. rewrite (_update_state_improved _ _ _ Hb Hgt).
    split; reflexivity.
Qed.

(** C4. A score above the best one by no more than [min_delta]
    ([score > best_score] and [score <= best_score + min_delta]). With
    [cumulative_delta] off the best score of the updated handler is the
    score and its counter is the old counter plus one; with it on the best
    score is the old one and the counter is the old counter plus one. In
    both modes nothing else changes: the updated handler is the old one with
    those two fields set. *)
Theorem small_improvement self (s best : score) :
  best_score self = Some best ->
  score_gt s best = true ->
  score_le s (score_add best (min_delta self)) = true ->
  (cumulative_delta self = false ->
     counter (_update_state self s) = counter self + 1 /\
     best_score (_update_state self s) = Some s /\
     _update_state self s =
       set_counter (set_best_score self (Some s)) (counter self + 1)) /\
  (cumulative_delta self = true ->
     counter (_update_state self s) = counter self + 1 /\
     best_score (_update_state self s) = Some best /\
     _update_state self s = set_counter self (counter self + 1)).
Proof.
  intros Hb Hgt Hle. rewrite (_update_state_plateau _ _ _ Hb Hle), Hgt.
  split; intros Hcd; rewrite Hcd; simpl.
  - split; [reflexivity|]. split; reflexivity.
  - split; [reflexivity|]. split; [exact Hb | reflexivity].
Qed.

End Update.

(** ** Sequences of calls *)

Section Sequences.
Import NoImprovementHandler Run.
Context {score : Type} `{ScoreOrder score}.
Context {World Engine : Type}.
Implicit Types self fresh : handler score World Engine.

Lemma __init___Ok (p : Z) sf pf stf (tr : pyarg Engine) (md : score) (cd : bool) self :
  __init__ p sf pf stf tr md cd = Ok self ->
  1 <= patience self /\ counter self = 0 /\ best_score self = None /\
  patience self = p /\ min_delta self = md /\ cumulative_delta self = cd.
Proof.
  unfold __init__.
  destruct sf as [sf|]; [|discriminate].
  destruct pf as [pf|]; [|discriminate].
  destruct stf as [stf|]; [|discriminate].
  destruct tr as [tr|]; [|discriminate].
  destruct (Z.ltb_spec p 1); [discriminate|].
  destruct (score_lt md score_zero); [discriminate|].
  intros [= <-]. simpl. repeat split; try reflexivity. assumption.
Qed.

(** The invariant of a run of rising scores: the counter is 0 and the next
    score beats the best one by more than [min_delta]. *)
Lemma feed_increasing (scores : list score) : forall self,
  counter self = 0 ->
  1 <= patience self ->
  increasing (min_delta self) scores ->
  (forall s best, head scores = Some s -> best_score self = Some best ->
     score_gt s (score_add best (min_delta self)) = true) ->
  Forall (fun h => counter h = 0 /\ decision_of h = Continue) (feed self scores).
Proof.
  induction scores as [|s rest IH]; intros self Hc Hp Hinc Hhd; simpl.
  - constructor.
  - assert (Hup : _update_state self s = set_best_score self (Some s) \/
                  _update_state self s = set_counter (set_best_score self (Some s)) 0).
    { destruct (best_score self) as [best|] eqn:Hb.
      - right. apply (_update_state_improved _ _ best Hb).
        apply Hhd; reflexivity.
      - left. apply _update_state_first, Hb. }
    assert (Hfacts : counter (_update_state self s) = 0 /\
                     patience (_update_state self s) = patience self /\
                     min_delta (_update_state self s) = min_delta self /\
                     best_score (_update_state self s) = Some s).
    { destruct Hup as [-> | ->]; simpl; repeat split; try reflexivity; exact Hc. }
    destruct Hfacts as (Hc' & Hp' & Hmd' & Hb').
    simpl in Hinc. destruct Hinc as [Hnext Hinc].
    constructor.
    + split; [exact Hc'|]. unfold decision_of. rewrite Hc', Hp'.
      destruct (Z.geb_spec 0 (patience self)); [lia | reflexivity].
    + apply IH; rewrite ?Hmd', ?Hp'; try assumption.
      intros s' best Hs' Hbest. rewrite Hb' in Hbest. injection Hbest as <-.
      destruct rest as [|s'' rest']; [discriminate|].
      simpl in Hs'. injection Hs' as ->. exact Hnext.
Qed.

(** A fresh handler has no best score, so the invariant holds from the
    first call on. *)
Lemma feed_rising (p : Z) sf pf stf (tr : pyarg Engine) (md : score) (cd : bool) self
    (scores : list score) :
  __init__ p sf pf stf tr md cd = Ok self ->
  increasing md scores ->
  Forall (fun h => counter h = 0 /\ decision_of h = Continue) (feed self scores).
Proof.
  intros Hinit Hinc.
  destruct (__init___Ok _ _ _ _ _ _ _ _ Hinit) as (Hp & Hc & Hb & _ & Hmd & _).
  apply feed_increasing; rewrite ?Hmd; try assumption.
  intros s best _ Hbest. rewrite Hb in Hbest. discriminate.
Qed.


End Sequences.

(** ** The persisted state *)

Section Persisted.
Import NoImprovementHandler Run.
Context {score : Type} `{Score score}.
Context {World Engine : Type}.
Implicit Types self fresh : handler score World Engine.
Implicit Types sd : Mapping score.

Lemma getitem_counter_spec sd :
  match items sd !! "counter" with
  | None => getitem_counter sd = Raise (KeyError "counter")
  | Some v => exists c, v = PyInt c /\ getitem_counter sd = Ok c
  end.
Proof.
  pose proof (items_typed sd) as Ht. unfold typed in Ht.
  apply andb_true_iff in Ht as [Ht _]. unfold getitem_counter.
  destruct (items sd !! "counter") as [[]|]; try discriminate; eauto.
Qed.

Lemma getitem_best_score_spec sd :
  match items sd !! "best_score" with
  | None => getitem_best_score sd = Raise (KeyError "best_score")
  | Some v => exists b, v = of_best_score b /\ getitem_best_score sd = Ok b
  end.
Proof.
  pose proof (items_typed sd) as Ht. unfold typed in Ht.
  apply andb_true_iff in Ht as [_ Ht]. unfold getitem_best_score.
  destruct (items sd !! "best_score") as [[]|]; try discriminate.
  - exists None. split; reflexivity.
  - eexists (Some _). split; reflexivity.
  - reflexivity.
Qed.

Lemma contains_spec sd (k : string) :
  contains sd k = true <-> is_Some (items sd !! k).
Proof. unfold contains. apply bool_decide_eq_true. Qed.

Lemma Serializable_load_state_dict_Ok (keys : list string) sd :
  Serializable_load_state_dict keys sd = Ok tt <->
  (forall k, In k keys -> contains sd k = true).
Proof.
  unfold Serializable_load_state_dict.
  destruct (find _ keys) as [k|] eqn:E.
  - apply find_some in E as [Hin Hk]. split; [discriminate|].
    intros Hall. rewrite (Hall k Hin) in Hk. discriminate.
  - split; [|reflexivity]. intros _ k Hin.
    pose proof (find_none _ _ E k Hin) as Hk. simpl in Hk.
    destruct (contains sd k); [reflexivity | discriminate].
Qed.

(** [load_state_dict], statement after statement. *)
Lemma load_state_dict_steps (keys : list string) sd self :
  load_state_dict keys sd self =
    match Serializable_load_state_dict keys sd with
    | Raise e => (Raise e, self)
    | Ok _ =>
      match getitem_counter sd with
      | Raise e => (Raise e, self)
      | Ok c =>
        match getitem_best_score sd with
        | Raise e => (Raise e, set_counter self c)
        | Ok b => (Ok tt, set_best_score (set_counter self c) b)
        end
      end
    end.
Proof.
  unfold load_state_dict, mbind, M_bind, lift, modify.
  destruct (Serializable_load_state_dict keys sd); [|reflexivity].
  destruct (getitem_counter sd); [|reflexivity].
  destruct (getitem_best_score sd); reflexivity.
Qed.

Lemma state_dict_counter self :
  items (state_dict self) !! "counter" = Some (PyInt (counter self)).
Proof. simpl. apply lookup_insert_eq. Qed.

Lemma state_dict_best_score self :
  items (state_dict self) !! "best_score" = Some (of_best_score (best_score self)).
Proof. simpl. rewrite lookup_insert_ne by discriminate. apply lookup_insert_eq. Qed.

Lemma state_dict_keys self :
  dom (items (state_dict self)) = ({["counter"; "best_score"]} : gset string).
Proof. simpl. rewrite !dom_insert_L, dom_empty_L. set_solver. Qed.

Lemma load_state_dict_Ok (keys : list string) sd self after :
  load_state_dict keys sd self = (Ok tt, after) ->
  (forall k, In k keys -> contains sd k = true) /\
  exists c b,
    items sd !! "counter" = Some (PyInt c) /\
    items sd !! "best_score" = Some (of_best_score b) /\
    after = set_best_score (set_counter self c) b.
Proof.
  rewrite load_state_dict_steps.
  destruct (Serializable_load_state_dict keys sd) as [[]|] eqn:Hs; [|discriminate].
  pose proof (proj1 (Serializable_load_state_dict_Ok keys sd) Hs) as Hkeys.
  pose proof (getitem_counter_spec sd) as Hc.
  pose proof (getitem_best_score_spec sd) as Hb.
  destruct (items sd !! "counter") as [vc|].
  - destruct Hc as (c & -> & ->).
    destruct (items sd !! "best_score") as [vb|].
    + destruct Hb as (b & -> & ->). intros [= <-]. eauto 10.
    + rewrite Hb. discriminate.
  - rewrite Hc. discriminate.
Qed.

Lemma load_state_dict_verbatim (keys : list string) sd self (c : Z) (b : option score) :
  (forall k, In k keys -> contains sd k = true) ->
  items sd !! "counter" = Some (PyInt c) ->
  items sd !! "best_score" = Some (of_best_score b) ->
  load_state_dict keys sd self = (Ok tt, set_best_score (set_counter self c) b).
Proof.
  intros Hkeys Hc Hb. rewrite load_state_dict_steps.
  rewrite (proj2 (Serializable_load_state_dict_Ok keys sd) Hkeys).
  unfold getitem_counter, getitem_best_score. rewrite Hc, Hb.
  destruct b; reflexivity.
Qed.

(** Handlers that agree on the fields the decision depends on. *)
Definition agree self fresh : Prop :=
  counter self = counter fresh /\ best_score self = best_score fresh /\
  same_configuration self fresh.

Lemma _update_state_agree self fresh (s : score) :
  agree self fresh -> agree (_update_state self s) (_update_state fresh s).
Proof.
  intros (Hc & Hb & Hp & Hmd & Hcd). unfold _update_state.
  rewrite Hb, Hmd, Hcd.
  destruct (best_score fresh) as [best|] eqn:Hbf.
  - destruct (score_le s (score_add best (min_delta fresh))).
    + destruct (negb (cumulative_delta fresh) && score_gt s best);
        repeat split; simpl; congruence.
    + repeat split; simpl; congruence.
  - repeat split; simpl; congruence.
Qed.

Lemma decision_of_agree self fresh : agree self fresh -> decision_of self = decision_of fresh.
Proof. intros (Hc & _ & Hp & _). unfold decision_of. rewrite Hc, Hp. reflexivity. Qed.

Lemma decisions_agree (scores : list score) : forall self fresh,
  agree self fresh -> decisions self scores = decisions fresh scores.
Proof.
  unfold decisions.
  induction scores as [|s rest IH]; intros self fresh Ha; simpl; [reflexivity|].
  pose proof (_update_state_agree _ _ s Ha) as Ha'.
  rewrite (decision_of_agree _ _ Ha'), (IH _ _ Ha'). reflexivity.
Qed.

(** C6. The state dict of a handler in any state, loaded into a handler of
    the same configuration, gives that handler the counter and the best
    score of the first, and from there the two end every call the same way,
    whatever scores follow. The keys the class requires are among the two
    the state dict has. *)
Theorem state_dict_round_trip (keys : list string) self fresh :
  (forall k, In k keys -> k = "counter" \/ k = "best_score") ->
  same_configuration fresh self ->
  exists restored,
    load_state_dict keys (state_dict self) fresh = (Ok tt, restored) /\
    counter restored = counter self /\
    best_score restored = best_score self /\
    forall scores : list score, decisions restored scores = decisions self scores.
Proof.
  intros Hkeys Hcfg.
  exists (set_best_score (set_counter fresh (counter self)) (best_score self)).
  split; [|split; [reflexivity|split; [reflexivity|]]].
  - apply load_state_dict_verbatim.
    + intros k Hin. apply contains_spec.
      destruct (Hkeys k Hin) as [-> | ->];
        [rewrite state_dict_counter | rewrite state_dict_best_score]; eauto.
    + apply state_dict_counter.
    + apply state_dict_best_score.
  - intros scores. apply decisions_agree.
    split; [reflexivity|split; [reflexivity|exact Hcfg]].
Qed.

(** C9. The state dict has exactly the keys ["counter"] and
    ["best_score"], holding the two fields. [load_state_dict] completes only
    on a mapping that has both keys; and on a mapping that has them (and the
    keys the class requires) it completes, and afterwards the counter of the
    handler is the value found under ["counter"] and its best score the
    value found under ["best_score"], whatever they are: any integer, any
    score or [None]. *)
Theorem persisted_state (keys : list string) self sd :
  (dom (items (state_dict self)) = ({["counter"; "best_score"]} : gset string) /\
   items (state_dict self) !! "counter" = Some (PyInt (counter self)) /\
   items (state_dict self) !! "best_score" = Some (of_best_score (best_score self))) /\
  (forall after, load_state_dict keys sd self = (Ok tt, after) ->
     is_Some (items sd !! "counter") /\ is_Some (items sd !! "best_score")) /\
  (forall (c : Z) (b : option score),
     (forall k, In k keys -> contains sd k = true) ->
     items sd !! "counter" = Some (PyInt c) ->
     items sd !! "best_score" = Some (of_best_score b) ->
     fst (load_state_dict keys sd self) = Ok tt /\
     counter (snd (load_state_dict keys sd self)) = c /\
     best_score (snd (load_state_dict keys sd self)) = b /\
     load_state_dict keys sd self = (Ok tt, set_best_score (set_counter self c) b)) /\
  (fst (load_state_dict EarlyStopping._state_dict_all_req_keys sd self) = Ok tt <->
     contains sd "counter" = true /\ contains sd "best_score" = true).
Proof.
  split; [|split; [|split]].
  - split; [apply state_dict_keys|].
    split; [apply state_dict_counter | apply state_dict_best_score].
  - intros after Hload.
    apply load_state_dict_Ok in Hload as (_ & c & b & -> & -> & _). eauto.
  - intros c b Hkeys Hc Hb.
    rewrite (load_state_dict_verbatim keys sd self c b Hkeys Hc Hb). simpl.
    split; [reflexivity|]. split; [reflexivity|]. split; reflexivity.
  - split.
    + destruct (load_state_dict _ sd self) as [[[]|e] after] eqn:E; [|discriminate].
      intros _. apply load_state_dict_Ok in E as (_ & c & b & Hc & Hb & _).
      split; apply contains_spec; [rewrite Hc | rewrite Hb]; eauto.
    + intros [Hc Hb]. apply contains_spec in Hc as Hc', Hb as Hb'.
      pose proof (getitem_counter_spec sd) as Hgc.
      pose proof (getitem_best_score_spec sd) as Hgb.
      destruct Hc' as [vc Hvc], Hb' as [vb Hvb]. rewrite Hvc in Hgc. rewrite Hvb in Hgb.
      destruct Hgc as (c & -> & _), Hgb as (b & -> & _).
      rewrite (load_state_dict_verbatim _ sd self c b); [reflexivity| |assumption..].
      intros k [<- | [<- | []]]; assumption.
Qed.

End Persisted.

(** ** Construction *)

Section Construction.
Import NoImprovementHandler.
Context {score : Type} `{Score score}.
Context {World Engine : Type}.

Lemma init_errors_distinct :
  NoDup [TypeError "Argument score_function should be a function.";
         TypeError "Argument pass_function should be a function.";
         TypeError "Argument stop_function should be a function.";
         TypeError "Argument trainer should be an instance of Engine.";
         ValueError "Argument patience should be positive integer.";
         ValueError "Argument min_delta should not be a negative number."].
Proof.
  repeat (apply NoDup_cons_2;
          [rewrite ?not_elem_of_cons; repeat split;
           (discriminate || apply not_elem_of_nil)|]).
  apply NoDup_nil_2.
Qed.

(** C3, as the code has it. [__init__] fails, before any call, in each of
    the six cases, with the error of the first check that fails, in the
    order of the source: a [TypeError] for a [score_function],
    [pass_function] or [stop_function] that is not callable and for a
    [trainer] that is not an [Engine]; a [ValueError] for [patience < 1] and
    for [min_delta < 0]. The six errors are pairwise distinct, and
    construction succeeds when no check fails. *)
Theorem init_checks (p : Z)
    (sf : pyarg (Engine -> M World score)) (pf stf : pyarg (Engine -> M World unit))
    (tr : pyarg Engine) (md : score) (cd : bool) :
  let r := __init__ p sf pf stf tr md cd in
  (callable sf = false ->
     r = Raise (TypeError "Argument score_function should be a function.")) /\
  (callable sf = true -> callable pf = false ->
     r = Raise (TypeError "Argument pass_function should be a function.")) /\
  (callable sf = true -> callable pf = true -> callable stf = false ->
     r = Raise (TypeError "Argument stop_function should be a function.")) /\
  (callable sf = true -> callable pf = true -> callable stf = true ->
   isinstance tr = false ->
     r = Raise (TypeError "Argument trainer should be an instance of Engine.")) /\
  (callable sf = true -> callable pf = true -> callable stf = true ->
   isinstance tr = true -> p < 1 ->
     r = Raise (ValueError "Argument patience should be positive integer.")) /\
  (callable sf = true -> callable pf = true -> callable stf = true ->
   isinstance tr = true -> 1 <= p -> score_lt md score_zero = true ->
     r = Raise (ValueError "Argument min_delta should not be a negative number.")) /\
  (callable sf = true -> callable pf = true -> callable stf = true ->
   isinstance tr = true -> 1 <= p -> score_lt md score_zero = false ->
     exists self, r = Ok self /\ counter self = 0 /\ best_score self = None) /\
  NoDup [TypeError "Argument score_function should be a function.";
         TypeError "Argument pass_function should be a function.";
         TypeError "Argument stop_function should be a function.";
         TypeError "Argument trainer should be an instance of Engine.";
         ValueError "Argument patience should be positive integer.";
         ValueError "Argument min_delta should not be a negative number."].
Proof.
  cbv zeta. unfold __init__.
  destruct sf as [sf|], pf as [pf|], stf as [stf|], tr as [tr|]; simpl;
    repeat apply conj;
    try (intros; (reflexivity || discriminate));
    try exact init_errors_distinct.
  - intros _ _ _ _ Hp. destruct (Z.ltb_spec p 1); [reflexivity | lia].
  - intros _ _ _ _ Hp Hmd. destruct (Z.ltb_spec p 1); [lia|].
    rewrite Hmd. reflexivity.
  - intros _ _ _ _ Hp Hmd. destruct (Z.ltb_spec p 1); [lia|].
    rewrite Hmd. eexists. repeat split; reflexivity.
Qed.

End Construction.

(** ** EarlyStopping *)

Section Stopping.
Import NoImprovementHandler.
Context {score : Type} `{Score score}.
Context {World Engine Logger : Type}.
Variable setup_logger : string -> World -> Logger * World.
Variable info : Logger -> string -> M World unit.
Variable terminate : Engine -> M World unit.

Local Abbreviation ES_init := (EarlyStopping.__init__ setup_logger info terminate).
Local Abbreviation ES_stop := (EarlyStopping.stop_function info terminate).

(** C8. [EarlyStopping] is the base handler with the two callbacks fixed.
    - [pass_function] does nothing; [stop_function] logs the message, then
      calls [terminate] on the trainer it is given.
    - Construction raises what the base [__init__] raises on the same
      arguments with those callbacks, and then leaves the world alone; when
      it succeeds the base part is the handler the base [__init__] makes,
      holding the two callbacks, and the logger is the one [setup_logger]
      returned.
    - [__call__] is the base [__call__] on the base part; the logger is the
      only other field and a call does not change it. *)
Theorem early_stopping_is_base_handler (p : Z)
    (sf : pyarg (Engine -> M World score)) (tr : pyarg Engine) (md : score) (cd : bool)
    (w : World) :
  (forall (t : Engine) (w0 : World),
     EarlyStopping.pass_function t w0 = (Ok tt, w0)) /\
  (forall (lg : Logger) (t : Engine) (w0 : World),
     ES_stop lg t w0 =
       match info lg "EarlyStopping: Stop training" w0 with
       | (Ok _, w1) => terminate t w1
       | (Raise e, w1) => (Raise e, w1)
       end) /\
  (let lg := fst (setup_logger "ignite.handlers.early_stopping.EarlyStopping" w) in
   let super := __init__ p sf (Is EarlyStopping.pass_function) (Is (ES_stop lg))
                  tr md cd in
   (forall e, super = Raise e -> ES_init p sf tr md cd w = (Raise e, w)) /\
   (forall h, super = Ok h ->
      ES_init p sf tr md cd w =
        (Ok {| EarlyStopping.base := h; EarlyStopping.logger := lg |},
         snd (setup_logger "ignite.handlers.early_stopping.EarlyStopping" w)) /\
      pass_function h = EarlyStopping.pass_function /\
      stop_function h = ES_stop lg)) /\
  (forall (self : EarlyStopping.handler score World Engine Logger) (engine : Engine)
          (w0 : World),
     EarlyStopping.__call__ self engine w0 =
       (fst (fst (__call__ (EarlyStopping.base self) engine w0)),
        {| EarlyStopping.base := snd (fst (__call__ (EarlyStopping.base self) engine w0));
           EarlyStopping.logger := EarlyStopping.logger self |},
        snd (__call__ (EarlyStopping.base self) engine w0))).
Proof.
  split; [reflexivity|]. split.
  { intros lg t w0. unfold EarlyStopping.stop_function, mbind, M_bind.
    destruct (info lg _ w0) as [[[]|e] w1]; reflexivity. }
  split.
  { cbv zeta. unfold EarlyStopping.__init__. cbv zeta.
    change (EarlyStopping.__name__ +:+ "." +:+ "EarlyStopping")
      with "ignite.handlers.early_stopping.EarlyStopping".
    destruct (setup_logger _ w) as [lg w']. simpl fst; simpl snd.
    split.
    - intros e ->. reflexivity.
    - intros h Hh. rewrite Hh. split; [reflexivity|].
      unfold __init__ in Hh.
      destruct sf; [|discriminate]. destruct tr; [|discriminate].
      destruct (p <? 1); [discriminate|].
      destruct (score_lt md score_zero); [discriminate|].
      injection Hh as <-. split; reflexivity. }
  intros self engine w0. unfold EarlyStopping.__call__.
  destruct (__call__ (EarlyStopping.base self) engine w0) as [[r h] w1]. reflexivity.
Qed.

End Stopping.

(** ** The scenario of the tests *)

Section Scenario.
Import NoImprovementHandler Run Example.

(** C7. [patience=3], [min_delta=0], [cumulative_delta=False] and the
    scores 1.0, 0.9, 0.9, 0.9: the four calls complete, the counter is 0, 1,
    2, 3 after them, the first three end with [pass_function] and the fourth
    with [stop_function], each on the trainer. *)
Theorem scenario_patience_3 :
  exists h0 h1 h2 h3 h4 w,
    __init__ 3 (Is next_score) (Is record_pass) (Is record_stop) (Is "trainer")
      0%float false = Ok h0 /\
    calls h0 ["evaluator"; "evaluator"; "evaluator"; "evaluator"]
      (script [1.0; 0.9; 0.9; 0.9]%float) = ([h1; h2; h3; h4], Ok tt, w) /\
    map counter [h1; h2; h3; h4] = [0; 1; 2; 3] /\
    trace w = [Scored "evaluator"; Passed "trainer";
               Scored "evaluator"; Passed "trainer";
               Scored "evaluator"; Passed "trainer";
               Scored "evaluator"; Stopped "trainer"].
Proof.
  do 6 eexists. split; [reflexivity|].
  split; [vm_compute; reflexivity|].
  split; reflexivity.
Qed.

End Scenario.

(** ** Runs in the recording world *)

Section RecordedRuns.
Import NoImprovementHandler Run.
Context {score : Type} `{Score score}.
Context {Engine : Type}.
Implicit Types self : handler score (recording score Engine) Engine.

(** On a handler with the recording callbacks, [calls] goes through the
    states [feed] lists and leaves the marks of [marks]: a run of calls is
    the run of [_update_state] over the scores the score function returned. *)
Lemma calls_recorded (engines : list Engine) : forall (scores rest : list score) self tr,
  score_function self = next_score ->
  pass_function self = record_pass ->
  stop_function self = record_stop ->
  length engines = length scores ->
  calls self engines {| pending := scores ++ rest; trace := tr |} =
    (feed self scores, Ok tt,
     {| pending := rest; trace := tr ++ marks self engines scores |}).
Proof.
  induction engines as [|engine engines IH]; intros [|s scores] rest self tr Hsf Hpf Hstf Hlen;
    try discriminate.
  - simpl. rewrite app_nil_r. reflexivity.
  - destruct (_update_state_frame self s) as (_ & Hsf' & Hpf' & Hstf' & Ht & _).
    simpl calls.
    rewrite (__call___decision_of self engine _
               {| pending := scores ++ rest; trace := tr ++ [Scored engine] |} s)
      by (rewrite Hsf; reflexivity).
    cbv zeta. simpl feed. simpl marks.
    unfold callback. rewrite Hpf, Hstf, Ht.
    destruct (decision_of (_update_state self s)); simpl;
      (rewrite IH by (injection Hlen; congruence));
      rewrite <- !app_assoc; reflexivity.
Qed.

Lemma marks_Continue (engines : list Engine) : forall (scores : list score) self,
  Forall (fun h => decision_of h = Continue) (feed self scores) ->
  Forall (fun c => forall t, c <> Stopped t) (marks self engines scores).
Proof.
  induction engines as [|engine engines IH]; intros [|s scores] self Hall; simpl;
    try constructor.
  - discriminate.
  - simpl in Hall. apply Forall_cons in Hall as [Hd Hall]. rewrite Hd.
    constructor; [discriminate|]. apply IH, Hall.
Qed.

(** Rising scores in the recording world: every call completes and
    [stop_function] leaves no mark. *)
Lemma rising_run_never_stops `{!ScoreOrder score} (p : Z) (tr : Engine) (md : score)
    (cd : bool) self (engines : list Engine) (scores : list score) :
  __init__ p (Is next_score) (Is record_pass) (Is record_stop) (Is tr) md cd = Ok self ->
  length engines = length scores ->
  increasing md scores ->
  exists w,
    calls self engines {| pending := scores; trace := [] |} = (feed self scores, Ok tt, w) /\
    Forall (fun c => forall t, c <> Stopped t) (trace w).
Proof.
  intros Hinit Hlen Hinc.
  pose proof (feed_rising _ _ _ _ _ _ _ _ _ Hinit Hinc) as Hall.
  assert (Hcb : score_function self = next_score /\ pass_function self = record_pass /\
                stop_function self = record_stop).
  { unfold __init__ in Hinit. destruct (p <? 1); [discriminate|].
    destruct (score_lt md score_zero); [discriminate|].
    injection Hinit as <-. repeat split. }
  destruct Hcb as (Hsf & Hpf & Hstf).
  pose proof (calls_recorded engines scores [] self [] Hsf Hpf Hstf Hlen) as Hrun.
  rewrite app_nil_r in Hrun. eexists. split; [exact Hrun|]. simpl.
  apply marks_Continue.
  eapply List.Forall_impl; [|exact Hall]. intros h [_ Hh]. exact Hh.
Qed.

End RecordedRuns.

(** ** The properties on the handlers of the tests *)

Section Instances.
Import NoImprovementHandler Run Example.

(** The first call of a run: the score 1.0 is recorded as the best one and
    the call ends with [pass_function] on the trainer. *)
Lemma call_runs_one_callback_first_call :
  __call__ (scripted 3 0 false) "evaluator" (script [1.0%float]) =
    (Ok tt, _update_state (scripted 3 0 false) 1.0%float,
     {| pending := []; trace := [Scored "evaluator"; Passed "trainer"] |}).
Proof.
  destruct (call_runs_one_callback (scripted 3 0 false) "evaluator"
              (script [1.0%float])
              {| pending := []; trace := [Scored "evaluator"] |} 1.0%float eq_refl)
    as (r & w2 & Hcall & _ & Hpass).
  rewrite Hcall.
  assert (Hlt : counter (_update_state (scripted 3 0 false) 1.0%float)
                < patience (scripted 3 0 false)) by (vm_compute; reflexivity).
  apply Hpass in Hlt. vm_compute in Hlt. injection Hlt as -> ->. reflexivity.
Defined.

(** A score below the best one: the counter goes from 1 to 2 and the best
    score stays. *)
Lemma update_state_rule_plateau :
  counter (_update_state (at_state (scripted 3 0 false) 1 (Some 1.0%float)) 0.9%float) = 2 /\
  best_score (_update_state (at_state (scripted 3 0 false) 1 (Some 1.0%float)) 0.9%float)
    = Some 1.0%float.
Proof.
  destruct (update_state_rule (at_state (scripted 3 0 false) 1 (Some 1.0%float))
              0.9%float) as (_ & Hplateau & _).
  exact (Hplateau 1.0%float eq_refl eq_refl).
Defined.

(** 1.2 after 1.0 with [min_delta=0.5]: the best score follows when
    [cumulative_delta] is off and stays when it is on; the counter goes from
    0 to 1 in both. *)
Lemma small_improvement_both_modes :
  (counter (_update_state (at_state (scripted 3 0.5 false) 0 (Some 1.0%float)) 1.2%float)
     = 1 /\
   best_score (_update_state (at_state (scripted 3 0.5 false) 0 (Some 1.0%float)) 1.2%float)
     = Some 1.2%float) /\
  (counter (_update_state (at_state (scripted 3 0.5 true) 0 (Some 1.0%float)) 1.2%float)
     = 1 /\
   best_score (_update_state (at_state (scripted 3 0.5 true) 0 (Some 1.0%float)) 1.2%float)
     = Some 1.0%float).
Proof.
  split.
  - pose proof (small_improvement
                  (at_state (scripted 3 0.5 false) 0 (Some 1.0%float))
                  1.2%float 1.0%float) as W.
    destruct W as [Hoff _]; [reflexivity..|].
    destruct Hoff as (Hc & Hb & _); [reflexivity|].
    split; [exact Hc | exact Hb].
  - pose proof (small_improvement
                  (at_state (scripted 3 0.5 true) 0 (Some 1.0%float))
                  1.2%float 1.0%float) as W.
    destruct W as [_ Hon]; [reflexivity..|].
    destruct Hon as (Hc & Hb & _); [reflexivity|].
    split; [exact Hc | exact Hb].
Defined.


(** The state of the spec, [counter=3] and [best_score=-0.5], restored into
    a fresh handler of the class [EarlyStopping]. *)
Lemma state_dict_round_trip_3_minus_half :
  exists restored,
    load_state_dict EarlyStopping._state_dict_all_req_keys
      (state_dict (at_state (scripted 3 0 false) 3 (Some (-0.5)%float)))
      (scripted 3 0 false) = (Ok tt, restored) /\
    counter restored = 3 /\
    best_score restored = Some (-0.5)%float /\
    forall scores : list float,
      decisions restored scores =
      decisions (at_state (scripted 3 0 false) 3 (Some (-0.5)%float)) scores.
Proof.
  apply (state_dict_round_trip EarlyStopping._state_dict_all_req_keys
           (at_state (scripted 3 0 false) 3 (Some (-0.5)%float)) (scripted 3 0 false)).
  - intros k [<- | [<- | []]]; [left | right]; reflexivity.
  - repeat split; reflexivity.
Defined.

(** Loading [checkpoint]: the counter becomes -7 and the best score 2.5, as
    they stand there. *)
Lemma persisted_state_checkpoint :
  fst (load_state_dict EarlyStopping._state_dict_all_req_keys checkpoint
         (scripted 3 0 false)) = Ok tt /\
  counter (snd (load_state_dict EarlyStopping._state_dict_all_req_keys checkpoint
                  (scripted 3 0 false))) = -7 /\
  best_score (snd (load_state_dict EarlyStopping._state_dict_all_req_keys checkpoint
                     (scripted 3 0 false))) = Some 2.5%float.
Proof.
  destruct (persisted_state EarlyStopping._state_dict_all_req_keys (scripted 3 0 false)
              checkpoint) as (_ & _ & Hload & _).
  destruct (Hload (-7) (Some 2.5%float)) as (Hr & Hc & Hb & _).
  - intros k [<- | [<- | []]]; reflexivity.
  - reflexivity.
  - reflexivity.
  - split; [exact Hr|]. split; [exact Hc | exact Hb].
Defined.

(** The three rejections of the tests: [patience=0], [min_delta=-0.1] and a
    score function that is [None]. *)
Lemma init_checks_rejections :
  __init__ 0 (Is next_score) (Is record_pass) (Is record_stop) (Is "trainer")
    0%float false
    = Raise (ValueError "Argument patience should be positive integer.") /\
  __init__ 3 (Is next_score) (Is record_pass) (Is record_stop) (Is "trainer")
    (-0.1)%float false
    = Raise (ValueError "Argument min_delta should not be a negative number.") /\
  __init__ (World := recording float string) 3 (IsNot PyNone) (Is record_pass) (Is record_stop) (Is "trainer")
    0%float false
    = Raise (TypeError "Argument score_function should be a function.").
Proof.
  split; [|split].
  - destruct (init_checks 0 (Is next_score) (Is record_pass) (Is record_stop)
                (Is "trainer") 0%float false) as (_ & _ & _ & _ & Hp & _).
    apply Hp; (reflexivity || lia).
  - destruct (init_checks 3 (Is next_score) (Is record_pass) (Is record_stop)
                (Is "trainer") (-0.1)%float false) as (_ & _ & _ & _ & _ & Hmd & _).
    apply Hmd; (reflexivity || lia).
  - destruct (init_checks (World := recording float string) 3 (IsNot PyNone) (Is record_pass) (Is record_stop)
                (Is "trainer") 0%float false) as (Hsf & _).
    apply Hsf. reflexivity.
Defined.

(** C3 as the spec words it does not hold: [patience=0] is rejected with a
    [ValueError], which is not a type error. *)
Lemma init_patience_zero_raises_ValueError :
  exists e,
    __init__ 0 (Is next_score) (Is record_pass) (Is record_stop) (Is "trainer")
      0%float false = Raise e /\
    is_ValueError e = true /\ is_TypeError e = false.
Proof.
  exists (ValueError "Argument patience should be positive integer.").
  repeat split; reflexivity.
Qed.

(** An [EarlyStopping] handler in the logging world: construction, and what
    its [stop_function] does to the world. *)
Lemma early_stopping_is_base_handler_logged :
  exists h,
    EarlyStopping.__init__ log_setup_logger log_info log_terminate
      2 (Is (constant_score 1.0%float)) (Is "trainer") 0%float false []
    = (Ok {| EarlyStopping.base := h;
             EarlyStopping.logger := "ignite.handlers.early_stopping.EarlyStopping" |},
       []) /\
    stop_function h "trainer" [] =
      (Ok tt, ["ignite.handlers.early_stopping.EarlyStopping: EarlyStopping: Stop training";
               "terminate trainer"]).
Proof.
  destruct (early_stopping_is_base_handler log_setup_logger log_info log_terminate
              2 (Is (constant_score 1.0%float)) (Is "trainer") 0%float false [])
    as (_ & _ & [_ Hinit] & _).
  eexists. split.
  - apply Hinit. reflexivity.
  - reflexivity.
Defined.

End Instances.

(** ** Longer runs *)

Section LongerRuns.
Import NoImprovementHandler Run Shape.
Context {score : Type} `{ScoreOrder score}.
Context {World Engine : Type}.
Implicit Types self : handler score World Engine.

Lemma feed_frame (scores : list score) : forall self (i : nat) h,
  feed self scores !! i = Some h ->
  patience h = patience self /\ min_delta h = min_delta self /\
  cumulative_delta h = cumulative_delta self.
Proof.
  induction scores as [|s rest IH]; intros self i h Hi; [discriminate|].
  destruct (_update_state_frame self s) as (Hp & _ & _ & _ & _ & Hmd & Hcd).
  destruct i as [|i]; simpl in Hi.
  - injection Hi as <-. repeat split; assumption.
  - destruct (IH _ _ _ Hi) as (Hp' & Hmd' & Hcd'). repeat split; congruence.
Qed.

(** A score that is no improvement, or a small one in cumulative mode, only
    counts. *)
Lemma _update_state_stall self (s b : score) :
  best_score self = Some b ->
  score_le s (score_add b (min_delta self)) = true ->
  cumulative_delta self = true \/ score_gt s b = false ->
  _update_state self s = set_counter self (counter self + 1).
Proof.
  intros Hb Hle Hmode. rewrite (_update_state_plateau _ _ _ Hb Hle).
  destruct Hmode as [-> | ->]; [reflexivity|]. rewrite andb_false_r. reflexivity.
Qed.

(** X1. A run without improvement: every score is at most
    [best_score + min_delta] and, unless [cumulative_delta] is on, not above
    the best score. The counter grows by one per call, the best score stays,
    and a call ends with [stop_function] exactly when the counter has
    reached [patience], at that call and at every later one. *)
Theorem stalled_run (scores : list score) : forall self (b : score) (i : nat) h,
  best_score self = Some b ->
  Forall (fun s => score_le s (score_add b (min_delta self)) = true /\
                   (cumulative_delta self = true \/ score_gt s b = false)) scores ->
  feed self scores !! i = Some h ->
  counter h = counter self + Z.of_nat (S i) /\
  best_score h = Some b /\
  (decision_of h = Limit <-> patience self <= counter self + Z.of_nat (S i)).
Proof.
  induction scores as [|s rest IH]; intros self b i h Hb Hall Hi; [discriminate|].
  apply Forall_cons in Hall as [[Hle Hmode] Hall].
  pose proof (_update_state_stall _ _ _ Hb Hle Hmode) as Hup.
  simpl in Hi. rewrite Hup in Hi.
  destruct i as [|i]; simpl in Hi.
  - injection Hi as <-. simpl. split; [lia|]. split; [exact Hb|].
    unfold decision_of. simpl.
    destruct (Z.geb_spec (counter self + 1) (patience self)); split;
      (lia || discriminate || reflexivity).
  - destruct (IH (set_counter self (counter self + 1)) b i h Hb Hall Hi)
      as (Hc & Hbest & Hd).
    simpl in Hc, Hd. split; [lia|]. split; [exact Hbest|].
    rewrite Hd. lia.
Qed.

(** X2. Small improvements in a row with [cumulative_delta] off: the best score
    follows every score, and still every call counts, so the counter grows
    by one per call although each score is higher than the last. *)
Theorem drifting_run (scores : list score) : forall self (b : score) (i : nat) h,
  cumulative_delta self = false ->
  best_score self = Some b ->
  drifting (min_delta self) b scores ->
  feed self scores !! i = Some h ->
  counter h = counter self + Z.of_nat (S i) /\
  best_score h = scores !! i.
Proof.
  induction scores as [|s rest IH]; intros self b i h Hcd Hb Hdrift Hi; [discriminate|].
  destruct Hdrift as (Hgt & Hle & Hdrift).
  assert (Hup : _update_state self s =
                set_counter (set_best_score self (Some s)) (counter self + 1)).
  { rewrite (_update_state_plateau _ _ _ Hb Hle), Hcd, Hgt. reflexivity. }
  simpl in Hi. rewrite Hup in Hi.
  destruct i as [|i]; simpl in Hi.
  - injection Hi as <-. simpl. split; [lia | reflexivity].
  - destruct (IH (set_counter (set_best_score self (Some s)) (counter self + 1))
                s i h Hcd eq_refl Hdrift Hi) as (Hc & Hbest).
    simpl in Hc. split; [lia | exact Hbest].
Qed.

Lemma _update_state_counter_bounds self (s : score) :
  0 <= counter self ->
  0 <= counter (_update_state self s) <= counter self + 1.
Proof.
  intros Hc. unfold _update_state.
  destruct (best_score self) as [best|]; [|simpl; lia].
  destruct (score_le s (score_add best (min_delta self))); [|simpl; lia].
  destruct (negb (cumulative_delta self) && score_gt s best); simpl; lia.
Qed.

Lemma feed_counter_bounds (scores : list score) : forall self (i : nat) h,
  0 <= counter self ->
  feed self scores !! i = Some h ->
  0 <= counter h <= counter self + Z.of_nat (S i).
Proof.
  induction scores as [|s rest IH]; intros self i h Hc Hi; [discriminate|].
  pose proof (_update_state_counter_bounds self s Hc) as Hc'.
  destruct i as [|i]; simpl in Hi.
  - injection Hi as <-. lia.
  - pose proof (IH _ _ _ (proj1 Hc') Hi). lia.
Qed.

(** X3. On a handler as [__init__] made it, the counter after the call number
    [i] (counting from 0) lies between 0 and [i]: the first call never
    counts. So none of the first [patience] calls ends with
    [stop_function], whatever the scores. *)
Theorem fresh_run_counter_bounds (p : Z) sf pf stf (tr : pyarg Engine) (md : score)
    (cd : bool) self (scores : list score) (i : nat) h :
  __init__ p sf pf stf tr md cd = Ok self ->
  feed self scores !! i = Some h ->
  0 <= counter h <= Z.of_nat i /\
  (Z.of_nat i < p -> decision_of h = Continue).
Proof.
  intros Hinit Hi.
  destruct (__init___Ok _ _ _ _ _ _ _ _ Hinit) as (_ & Hc & Hb & Hp & _).
  destruct (feed_frame _ _ _ _ Hi) as (Hph & _).
  assert (Hbounds : 0 <= counter h <= Z.of_nat i).
  { destruct scores as [|s rest]; [discriminate|].
    simpl in Hi. rewrite (_update_state_first _ _ Hb) in Hi.
    destruct i as [|i]; simpl in Hi.
    - injection Hi as <-. simpl. lia.
    - pose proof (feed_counter_bounds rest (set_best_score self (Some s)) i h) as Hr.
      simpl in Hr. specialize (Hr ltac:(lia) Hi). lia. }
  split; [exact Hbounds|]. intros Hlt. unfold decision_of. rewrite Hph, Hp.
  destruct (Z.geb_spec (counter h) p); [lia | reflexivity].
Qed.

Lemma _update_state_best_score self (s : score) :
  best_score (_update_state self s) = Some s \/
  best_score (_update_state self s) = best_score self /\ best_score self <> None.
Proof.
  unfold _update_state.
  destruct (best_score self) as [best|] eqn:Hb; [|left; reflexivity].
  destruct (score_le s (score_add best (min_delta self))); [|left; reflexivity].
  destruct (negb (cumulative_delta self) && score_gt s best); simpl;
    [left; reflexivity | right; rewrite Hb; split; [reflexivity | discriminate]].
Qed.

(** X4. After any call the handler has a best score, and it is one of the
    scores seen up to that call or the best score the run started with. *)
Theorem best_score_is_observed (scores : list score) : forall self (i : nat) h,
  feed self scores !! i = Some h ->
  exists s, best_score h = Some s /\
            (s ∈ take (S i) scores \/ best_score self = Some s).
Proof.
  induction scores as [|s0 rest IH]; intros self i h Hi; [discriminate|].
  destruct i as [|i]; simpl in Hi.
  - injection Hi as <-.
    destruct (_update_state_best_score self s0) as [Hs | [Hs Hne]].
    + exists s0. split; [exact Hs|]. left. simpl. apply list_elem_of_here.
    + destruct (best_score self) as [b|] eqn:Hb; [|congruence].
      exists b. split; [exact Hs | right; reflexivity].
  - destruct (IH _ _ _ Hi) as (s & Hs & [Hin | Hprev]).
    + exists s. split; [exact Hs|]. left.
      change (take (S (S i)) (s0 :: rest)) with (s0 :: take (S i) rest).
      apply list_elem_of_further, Hin.
    + exists s. split; [exact Hs|].
      destruct (_update_state_best_score self s0) as [Hs0 | [Hs0 _]].
      * left. rewrite Hs0 in Hprev. injection Hprev as ->.
        simpl. apply list_elem_of_here.
      * right. rewrite <- Hs0. exact Hprev.
Qed.

(** X5. The limit is not final: also when the counter has reached [patience], a
    score above [best_score + min_delta] resets it, and the call ends with
    [pass_function]. *)
Theorem improvement_after_limit self (engine : Engine) (w w1 : World) (s b : score) :
  1 <= patience self ->
  best_score self = Some b ->
  score_function self engine w = (Ok s, w1) ->
  score_gt s (score_add b (min_delta self)) = true ->
  __call__ self engine w =
    (fst (pass_function self (trainer self) w1),
     set_counter (set_best_score self (Some s)) 0,
     snd (pass_function self (trainer self) w1)).
Proof.
  intros Hp Hb Hs Hgt. rewrite (__call___decision_of _ _ _ _ _ Hs). cbv zeta.
  rewrite (_update_state_improved _ _ _ Hb Hgt). unfold decision_of. simpl.
  destruct (Z.geb_spec 0 (patience self)); [lia|]. simpl.
  destruct (pass_function self (trainer self) w1). reflexivity.
Qed.

End LongerRuns.

(** ** Loading a state dict *)

Section Loading.
Import NoImprovementHandler Run.
Context {score : Type} `{Score score}.
Context {World Engine : Type}.
Implicit Types self : handler score World Engine.
Implicit Types sd : Mapping score.

(** X6. [load_state_dict] is not all or nothing. Without ["counter"] it raises
    [KeyError] before it assigns anything: counter and best score are those
    of before. With ["counter"] but without ["best_score"] it raises
    [KeyError] after the counter was overwritten: the counter of the handler
    is the loaded one and its best score the old one. The inherited check
    is assumed to pass, so the class requires neither missing key. *)
Theorem load_state_dict_missing_key (keys : list string) sd self :
  (forall k, In k keys -> contains sd k = true) ->
  (items sd !! "counter" = None ->
     fst (load_state_dict keys sd self) = Raise (KeyError "counter") /\
     counter (snd (load_state_dict keys sd self)) = counter self /\
     best_score (snd (load_state_dict keys sd self)) = best_score self /\
     snd (load_state_dict keys sd self) = self) /\
  (forall c : Z,
     items sd !! "counter" = Some (PyInt c) ->
     items sd !! "best_score" = None ->
     fst (load_state_dict keys sd self) = Raise (KeyError "best_score") /\
     counter (snd (load_state_dict keys sd self)) = c /\
     best_score (snd (load_state_dict keys sd self)) = best_score self).
Proof.
  intros Hkeys. rewrite load_state_dict_steps.
  rewrite (proj2 (Serializable_load_state_dict_Ok keys sd) Hkeys).
  unfold getitem_counter, getitem_best_score. split.
  - intros ->. simpl. repeat split.
  - intros c -> ->. simpl. repeat split.
Qed.

(** X7. Whatever the mapping holds and however loading ends, [load_state_dict]
    leaves the configuration and the injected objects alone. *)
Theorem load_state_dict_frame (keys : list string) sd self :
  let after := snd (load_state_dict keys sd self) in
  patience after = patience self /\
  min_delta after = min_delta self /\
  cumulative_delta after = cumulative_delta self /\
  score_function after = score_function self /\
  pass_function after = pass_function self /\
  stop_function after = stop_function self /\
  trainer after = trainer self.
Proof.
  cbv zeta. rewrite load_state_dict_steps.
  destruct (Serializable_load_state_dict keys sd); [|repeat split].
  destruct (getitem_counter sd); [|repeat split].
  destruct (getitem_best_score sd); repeat split.
Qed.

(** X8. Load, then save: the state dict of a handler that loaded a mapping
    holds what the mapping held under ["counter"] and ["best_score"], and
    nothing of its other keys. *)
Theorem load_then_state_dict (keys : list string) sd self after :
  load_state_dict keys sd self = (Ok tt, after) ->
  items (state_dict after) !! "counter" = items sd !! "counter" /\
  items (state_dict after) !! "best_score" = items sd !! "best_score" /\
  forall k : string, k <> "counter" -> k <> "best_score" ->
    items (state_dict after) !! k = None.
Proof.
  intros Hload.
  apply load_state_dict_Ok in Hload as (_ & c & b & Hc & Hb & ->).
  rewrite state_dict_counter, state_dict_best_score, Hc, Hb.
  split; [reflexivity|]. split; [reflexivity|].
  intros k Hk1 Hk2. simpl.
  rewrite !lookup_insert_ne by congruence. apply lookup_empty.
Qed.

Lemma load_state_dict_fields (keys : list string) sd self :
  patience (snd (load_state_dict keys sd self)) = patience self /\
  pass_function (snd (load_state_dict keys sd self)) = pass_function self /\
  stop_function (snd (load_state_dict keys sd self)) = stop_function self.
Proof.
  rewrite load_state_dict_steps.
  destruct (Serializable_load_state_dict keys sd); [|repeat split].
  destruct (getitem_counter sd); [|repeat split].
  destruct (getitem_best_score sd); repeat split.
Qed.

Lemma call_frame_fields self (engine : Engine) (w : World) :
  patience (snd (fst (__call__ self engine w))) = patience self /\
  pass_function (snd (fst (__call__ self engine w))) = pass_function self /\
  stop_function (snd (fst (__call__ self engine w))) = stop_function self.
Proof.
  unfold __call__.
  destruct (score_function self engine w) as [[s|e] w1]; simpl; [|repeat split].
  destruct (_update_state_frame self s) as (? & ? & ? & ? & ? & ? & ?).
  match goal with |- context [let '(_, _) := ?c in _] => destruct c end.
  simpl. repeat split; assumption.
Qed.

End Loading.

(** ** EarlyStopping at work *)

Section StoppingAtWork.
Import NoImprovementHandler Run.
Context {score : Type} `{Score score}.
Context {World Engine Logger : Type}.
Variable setup_logger : string -> World -> Logger * World.
Variable info : Logger -> string -> M World unit.
Variable terminate : Engine -> M World unit.

Local Abbreviation init := (EarlyStopping.__init__ setup_logger info terminate).
Local Abbreviation stop := (EarlyStopping.stop_function info terminate).

Local Abbreviation bound := (Bound.bound info terminate).

(** X9. The binding of the callbacks is an invariant of [EarlyStopping]
    objects: [__init__] establishes it, and neither a call nor
    [load_state_dict] breaks it, however they end. *)
Theorem early_stopping_bound_invariant :
  (forall (p : Z) sf (tr : pyarg Engine) (md : score) (cd : bool) (w w' : World) self,
     init p sf tr md cd w = (Ok self, w') -> bound self) /\
  (forall self (engine : Engine) (w : World),
     bound self -> bound (snd (fst (EarlyStopping.__call__ self engine w)))) /\
  (forall self (sd : Mapping score),
     bound self -> bound (snd (EarlyStopping.load_state_dict sd self))).
Proof.
  split; [|split].
  - intros p sf tr md cd w w' self.
    unfold EarlyStopping.__init__. cbv zeta.
    destruct (setup_logger _ w) as [lg w0]. simpl fst.
    destruct (__init__ p sf _ _ tr md cd) as [h|e] eqn:Hh; [|discriminate].
    intros [= <- <-]. unfold Bound.bound. simpl.
    unfold __init__ in Hh.
    destruct sf; [|discriminate]. destruct tr; [|discriminate].
    destruct (Z.ltb_spec p 1); [discriminate|].
    destruct (score_lt md score_zero); [discriminate|].
    injection Hh as <-. simpl. repeat split. assumption.
  - intros self engine w (Hpf & Hstf & Hp). unfold EarlyStopping.__call__.
    pose proof (call_frame_fields (EarlyStopping.base self) engine w) as Hframe.
    destruct (__call__ (EarlyStopping.base self) engine w) as [[r h] w1].
    simpl in Hframe. destruct Hframe as (Hp' & Hpf' & Hstf').
    unfold Bound.bound. simpl. rewrite Hp', Hpf', Hstf'. repeat split; assumption.
  - intros self sd (Hpf & Hstf & Hp). unfold EarlyStopping.load_state_dict.
    pose proof (load_state_dict_fields EarlyStopping._state_dict_all_req_keys sd
                  (EarlyStopping.base self)) as Hframe.
    destruct (load_state_dict _ sd (EarlyStopping.base self)) as [r h].
    simpl in Hframe. destruct Hframe as (Hp' & Hpf' & Hstf').
    unfold Bound.bound. simpl. rewrite Hp', Hpf', Hstf'. repeat split; assumption.
Qed.

(** X10. A call of an [EarlyStopping] object whose score function returned [s].
    While the counter is below [patience] the call does nothing more to the
    world and returns; once it has reached [patience] the call logs the
    message and then calls [terminate] on the trainer, and fails only if one
    of the two does. *)
Theorem early_stopping_call (self : EarlyStopping.handler score World Engine Logger)
    (engine : Engine) (w w1 : World) (s : score) :
  bound self ->
  score_function (EarlyStopping.base self) engine w = (Ok s, w1) ->
  let updated := _update_state (EarlyStopping.base self) s in
  let after := {| EarlyStopping.base := updated;
                  EarlyStopping.logger := EarlyStopping.logger self |} in
  (counter updated < patience (EarlyStopping.base self) ->
     EarlyStopping.__call__ self engine w = (Ok tt, after, w1)) /\
  (patience (EarlyStopping.base self) <= counter updated ->
     EarlyStopping.__call__ self engine w =
       match info (EarlyStopping.logger self) "EarlyStopping: Stop training" w1 with
       | (Ok _, w2) =>
         (fst (terminate (trainer (EarlyStopping.base self)) w2), after,
          snd (terminate (trainer (EarlyStopping.base self)) w2))
       | (Raise e, w2) => (Raise e, after, w2)
       end).
Proof.
  intros (Hpf & Hstf & _) Hs. cbv zeta.
  unfold EarlyStopping.__call__.
  rewrite (__call___decision_of _ _ _ _ _ Hs). cbv zeta.
  destruct (_update_state_frame (EarlyStopping.base self) s) as (Hp' & _).
  unfold decision_of, callback. rewrite Hp', Hpf, Hstf.
  split; intros Hc.
  - destruct (Z.geb_spec (counter (_update_state (EarlyStopping.base self) s))
                (patience (EarlyStopping.base self))); [lia | reflexivity].
  - destruct (Z.geb_spec (counter (_update_state (EarlyStopping.base self) s))
                (patience (EarlyStopping.base self))); [|lia].
    unfold EarlyStopping.stop_function, mbind, M_bind.
    destruct (info _ _ w1) as [[[]|e] w2]; [|reflexivity].
    destruct (terminate _ w2). reflexivity.
Qed.

(** X11. Construction of an [EarlyStopping] handler fails with one of four
    errors only: the two callbacks are its own methods, so the errors about
    [pass_function] and [stop_function] cannot occur. It succeeds exactly
    when the score function is callable, the trainer is an [Engine],
    [patience >= 1] and [min_delta < 0] is false; a failed construction has
    not touched the world. *)
Theorem early_stopping_init_errors (p : Z) sf (tr : pyarg Engine) (md : score) (cd : bool)
    (w : World) :
  (forall e w', init p sf tr md cd w = (Raise e, w') ->
     w' = w /\
     (e = TypeError "Argument score_function should be a function." \/
      e = TypeError "Argument trainer should be an instance of Engine." \/
      e = ValueError "Argument patience should be positive integer." \/
      e = ValueError "Argument min_delta should not be a negative number.")) /\
  ((exists self w', init p sf tr md cd w = (Ok self, w')) <->
   callable sf = true /\ isinstance tr = true /\ 1 <= p /\
   score_lt md score_zero = false).
Proof.
  unfold EarlyStopping.__init__. cbv zeta.
  destruct (setup_logger _ w) as [lg w0]. simpl fst. unfold __init__.
  destruct sf as [sf|]; simpl.
  2:{ split; [intros e w' [= <- <-]; auto|].
      split; [intros (? & ? & [=]) | intros ([=] & _)]. }
  destruct tr as [tr|]; simpl.
  2:{ split; [intros e w' [= <- <-]; auto|].
      split; [intros (? & ? & [=]) | intros (_ & [=] & _)]. }
  destruct (Z.ltb_spec p 1).
  { split; [intros e w' [= <- <-]; auto|].
    split; [intros (? & ? & [=]) | intros (_ & _ & ? & _); lia]. }
  destruct (score_lt md score_zero).
  { split; [intros e w' [= <- <-]; auto|].
    split; [intros (? & ? & [=]) | intros (_ & _ & _ & [=])]. }
  split; [intros e w' [=]|].
  split; [intros _; auto | intros _; eauto].
Qed.

End StoppingAtWork.

(** ** A run that runs out of scores *)

Section Exhausted.
Import NoImprovementHandler Run.
Context {score : Type} `{Score score}.
Context {Engine : Type}.
Implicit Types self : handler score (recording score Engine) Engine.

Lemma last_cons_default {A : Type} (l : list A) : forall x d : A,
  List.last (x :: l) d = List.last l x.
Proof.
  induction l as [|y l IH]; intros x d; [reflexivity|].
  change (List.last (x :: y :: l) d) with (List.last (y :: l) d).
  rewrite !IH. reflexivity.
Qed.

(** In the recording world with more events than scores: the calls that get
    a score complete as usual; the next one raises the [StopIteration] of
    the score function, runs no callback, leaves the handler as the last
    completed call left it, and ends the run. *)
Theorem run_out_of_scores (scores : list score) self (engines : list Engine)
    (engine : Engine) (more : list Engine) (tr : list (call Engine)) :
  score_function self = next_score ->
  pass_function self = record_pass ->
  stop_function self = record_stop ->
  length engines = length scores ->
  calls self (engines ++ engine :: more) {| pending := scores; trace := tr |} =
    (feed self scores ++ [List.last (feed self scores) self],
     Raise StopIteration,
     {| pending := []; trace := tr ++ marks self engines scores |}).
Proof.
  revert scores self tr.
  induction engines as [|e engines IH]; intros [|s scores] self tr Hsf Hpf Hstf Hlen;
    try discriminate.
  - simpl. unfold __call__. rewrite Hsf. simpl. rewrite app_nil_r. reflexivity.
  - destruct (_update_state_frame self s) as (_ & Hsf' & Hpf' & Hstf' & Ht & _).
    change ((e :: engines) ++ engine :: more) with (e :: (engines ++ engine :: more)).
    simpl calls.
    rewrite (__call___decision_of self e _
               {| pending := scores; trace := tr ++ [Scored e] |} s)
      by (rewrite Hsf; reflexivity).
    cbv zeta. simpl feed. simpl marks.
    unfold callback. rewrite Hpf, Hstf, Ht.
    rewrite last_cons_default.
    destruct (decision_of (_update_state self s)); simpl;
      (rewrite IH by (congruence || (injection Hlen; congruence)));
      rewrite <- !app_assoc; reflexivity.
Qed.

End Exhausted.

(** ** The names the autosummary directive lists *)

Section Autolist.
Import Conf.
Implicit Types module : pymodule.
Implicit Types keep : string -> result bool.

Ltac unfold_result := unfold mbind, result_bind, mret, result_ret in *.

Lemma comprehension_Done keep (names l : list string) :
  comprehension keep names = Done l ->
  l `sublist_of` names /\
  (forall n, In n l -> In n names /\ keep n = Done true) /\
  (forall n, In n names -> exists b, keep n = Done b).
Proof.
  revert l. induction names as [|name names IH]; intros l; simpl; unfold_result.
  - intros [= <-]. split; [constructor|]. split; intros n [].
  - destruct (keep name) as [b|e] eqn:Hk; [|discriminate].
    destruct (comprehension keep names) as [rest|e]; [|discriminate].
    destruct (IH rest eq_refl) as (Hsub & Htrue & Hall).
    intros [= <-]. split; [|split].
    + destruct b; [apply sublist_skip | apply sublist_cons]; exact Hsub.
    + intros n Hn. destruct b; [destruct Hn as [<- | Hn]|].
      * split; [left; reflexivity | exact Hk].
      * destruct (Htrue n Hn). split; [right|]; assumption.
      * destruct (Htrue n Hn). split; [right|]; assumption.
    + intros n [<- | Hn]; eauto.
Qed.

Lemma comprehension_total keep (names : list string) :
  (forall n, In n names -> exists b, keep n = Done b) ->
  exists l, comprehension keep names = Done l.
Proof.
  induction names as [|name names IH]; intros Hall; simpl; unfold_result; [eauto|].
  destruct (Hall name (or_introl eq_refl)) as [b ->].
  destruct IH as [rest ->]; [intros n Hn; apply Hall; right; exact Hn|]. eauto.
Qed.

Lemma comprehension_Raised keep (pre post : list string) (name : string) (e : error) :
  (forall n, In n pre -> exists b, keep n = Done b) ->
  keep name = Raised e ->
  comprehension keep (pre ++ name :: post) = Raised e.
Proof.
  intros Hpre Hname.
  induction pre as [|x pre IH]; simpl; unfold_result.
  - rewrite Hname. reflexivity.
  - destruct (Hpre x (or_introl eq_refl)) as [b ->].
    simpl in IH. rewrite IH; [reflexivity|].
    intros n Hn. apply Hpre. right. exact Hn.
Qed.

Lemma getattr_Done module (name : string) (o : object) :
  getattr module name = Done o -> In (name, o) (members module).
Proof.
  unfold getattr.
  destruct (find _ (members module)) as [[n o']|] eqn:Hf; [|discriminate].
  apply find_some in Hf as [Hin Heq]. simpl in Heq.
  apply String.eqb_eq in Heq as ->. intros [= <-]. exact Hin.
Qed.

Lemma getattr_defined module (name : string) :
  In name (map fst (members module)) -> exists o, getattr module name = Done o.
Proof.
  intros Hin. unfold getattr.
  destruct (find _ (members module)) as [m|] eqn:Hf; [eauto|].
  apply in_map_iff in Hin as ([n o] & <- & Hin).
  pose proof (find_none _ _ Hf _ Hin) as Hne. simpl in Hne.
  rewrite String.eqb_refl in Hne. discriminate.
Qed.

Lemma getattr_undefined module (name : string) :
  ~ In name (map fst (members module)) ->
  getattr module name = Raised (AttributeError name).
Proof.
  intros Hnot. unfold getattr.
  destruct (find _ (members module)) as [[n o]|] eqn:Hf; [|reflexivity].
  apply find_some in Hf as [Hin Heq]. simpl in Heq.
  apply String.eqb_eq in Heq as ->.
  exfalso. apply Hnot. apply in_map_iff. exists (name, o). split; [reflexivity|exact Hin].
Qed.

Lemma getattr_member module (m : string * object) :
  List.NoDup (map fst (members module)) ->
  In m (members module) ->
  getattr module (fst m) = Done (snd m).
Proof.
  unfold getattr. induction (members module) as [|[n o] ms IH]; intros Hnd Hin;
    [destruct Hin|].
  simpl in Hnd. apply List.NoDup_cons_iff in Hnd as [Hfresh Hnd]. simpl.
  destruct Hin as [<- | Hin]; simpl.
  - rewrite String.eqb_refl. reflexivity.
  - destruct (String.eqb_spec n (fst m)) as [-> | _]; [|apply IH; assumption].
    exfalso. apply Hfresh. apply in_map. exact Hin.
Qed.

Lemma filter_all {A : Type} (l : list A) : List.filter (fun _ => true) l = l.
Proof. induction l as [|x l IH]; [reflexivity|]. simpl. rewrite IH. reflexivity. Qed.

(** Comprehensions over names of members whose condition reads the member. *)
Lemma comprehension_members module (f : object -> bool) (ms : list (string * object)) :
  (forall m, In m ms -> getattr module (fst m) = Done (snd m)) ->
  comprehension (fun name => o ← getattr module name; mret (f o)) (map fst ms) =
    Done (map fst (List.filter (fun m => f (snd m)) ms)).
Proof.
  induction ms as [|m ms IH]; intros Hget; simpl; unfold_result; [reflexivity|].
  rewrite (Hget m (or_introl eq_refl)).
  fold (@mbind result _) (@mret result _) in IH. unfold_result.
  rewrite IH by (intros m' Hm'; apply Hget; right; exact Hm').
  destruct (f (snd m)); reflexivity.
Qed.

Lemma autolist_names_steps (auto : string) (mn : option string) module :
  is_option auto ->
  autolist_names auto mn module =
    (names ← comprehension
               (fun name => o ← getattr module name;
                            mret (bool_decide (__doc__ o <> None)))
               (public_names mn module);
     comprehension (fun name => o ← getattr module name; mret (wanted auto o)) names).
Proof.
  intros Hauto. unfold autolist_names. cbv zeta. unfold_result.
  destruct (comprehension _ (public_names mn module)) as [names|e]; [|reflexivity].
  assert (Hsame : forall keep1 keep2 : string -> result bool,
            (forall n, keep1 n = keep2 n) ->
            comprehension keep1 names = comprehension keep2 names).
  { intros keep1 keep2 Hk. induction names as [|n names IH]; [reflexivity|].
    simpl. unfold_result. rewrite Hk, IH. reflexivity. }
  destruct Hauto as [-> | [-> | ->]]; unfold wanted; simpl; apply Hsame; intros n;
    destruct (getattr module n) as [o|e]; try reflexivity.
  destruct (isclass o); reflexivity.
Qed.

(** X12. Whatever the module and the option, every name the directive lists is
    an attribute of the module that has a docstring and is a class or a
    function: a class under [autolist-classes], a function under
    [autolist-functions]. *)
Theorem autolist_names_sound (auto : string) (mn : option string) module
    (names : list string) :
  is_option auto ->
  autolist_names auto mn module = Done names ->
  forall n, In n names ->
    exists o, getattr module n = Done o /\ __doc__ o <> None /\
              (isclass o = true \/ isfunction o = true) /\
              (auto = "autolist-classes" -> isclass o = true) /\
              (auto = "autolist-functions" -> isfunction o = true).
Proof.
  intros Hauto. rewrite (autolist_names_steps _ _ _ Hauto). unfold_result.
  destruct (comprehension _ (public_names mn module)) as [l1|e] eqn:H1; [|discriminate].
  intros H2 n Hn.
  apply comprehension_Done in H1 as (_ & Hdoc & _).
  apply comprehension_Done in H2 as (Hsub & Hkind & _).
  destruct (Hkind n Hn) as [Hn1 Hk]. destruct (Hdoc n Hn1) as [_ Hd].
  clear Hkind Hdoc. rename Hk into Hkind. rename Hd into Hdoc. unfold_result.
  destruct (getattr module n) as [o|e]; [|discriminate].
  exists o. split; [reflexivity|].
  injection Hdoc as Hdoc. injection Hkind as Hkind.
  apply bool_decide_eq_true in Hdoc. split; [exact Hdoc|].
  unfold wanted in Hkind.
  destruct Hauto as [-> | [-> | ->]]; simpl in Hkind.
  - apply orb_true_iff in Hkind. repeat split; [exact Hkind | discriminate..].
  - repeat split; [left; exact Hkind | intros _; exact Hkind | discriminate].
  - repeat split; [right; exact Hkind | discriminate | intros _; exact Hkind].
Qed.

(** X13. A module with [__all__]: the directive lists names of [__all__] only, in
    the order of [__all__], and the current module name and a leading
    underscore play no part. *)
Theorem exports_govern (auto : string) (mn : option string) module
    (exported names : list string) :
  __all__ module = Some exported ->
  autolist_names auto mn module = Done names ->
  names `sublist_of` exported /\
  forall mn' : option string, autolist_names auto mn' module = Done names.
Proof.
  intros Hall Hnames.
  assert (Hpub : forall mn', public_names mn' module = exported)
    by (intros mn'; unfold public_names; rewrite Hall; reflexivity).
  split.
  - unfold autolist_names in Hnames. cbv zeta in Hnames. rewrite Hpub in Hnames.
    unfold_result.
    destruct (comprehension _ exported) as [l1|e] eqn:H1; [|discriminate].
    apply comprehension_Done in H1 as (Hsub1 & _).
    etrans; [|exact Hsub1].
    destruct (String.eqb auto "autolist").
    + apply comprehension_Done in Hnames as (Hsub & _). exact Hsub.
    + destruct (String.eqb auto "autolist-classes");
        [|destruct (String.eqb auto "autolist-functions"); [|discriminate]];
        apply comprehension_Done in Hnames as (Hsub & _); exact Hsub.
  - intros mn'. rewrite <- Hnames. unfold autolist_names. cbv zeta.
    rewrite !Hpub. reflexivity.
Qed.

(** X14. A name in [__all__] that the module does not define: the directive
    raises the [AttributeError] of the first such name, under every option. *)
Theorem missing_export_raises (auto : string) (mn : option string) module
    (pre post : list string) (name : string) :
  __all__ module = Some (pre ++ name :: post) ->
  (forall n, In n pre -> In n (map fst (members module))) ->
  ~ In name (map fst (members module)) ->
  autolist_names auto mn module = Raised (AttributeError name).
Proof.
  intros Hall Hpre Hname. unfold autolist_names. cbv zeta.
  unfold public_names. rewrite Hall.
  rewrite (comprehension_Raised _ pre post name (AttributeError name)).
  - reflexivity.
  - intros n Hn. destruct (getattr_defined module n (Hpre n Hn)) as [o Ho].
    unfold_result. rewrite Ho. eauto.
  - unfold_result. rewrite (getattr_undefined _ _ Hname). reflexivity.
Qed.

Lemma autolist_names_members (auto : string) (mn : option string) module
    (ms : list (string * object)) :
  is_option auto ->
  List.NoDup (map fst (members module)) ->
  (forall m, In m ms -> In m (members module)) ->
  public_names mn module = map fst ms ->
  autolist_names auto mn module =
    Done (map fst (List.filter (fun m => wanted auto (snd m))
                     (List.filter (fun m => bool_decide (__doc__ (snd m) <> None)) ms))).
Proof.
  intros Hauto Hnd Hms Hpub. rewrite (autolist_names_steps _ _ _ Hauto), Hpub.
  rewrite comprehension_members
    by (intros m Hm; apply getattr_member; [exact Hnd | apply Hms, Hm]).
  change (?r ≫= ?k) with (mbind k r). unfold mbind at 1, result_bind.
  apply comprehension_members.
  intros m Hm. apply filter_In in Hm as [Hm _].
  apply getattr_member; [exact Hnd | apply Hms, Hm].
Qed.

(** X15. A module without [__all__] that defines a public class or function of
    its own: the directive does not raise, and what it lists are members
    defined in the module itself ([__module__] is the current module) whose
    names do not start with an underscore. Imported and private names are
    left out. *)
Theorem own_public_names_only (auto : string) (mn : option string) module
    (own : string * object) :
  is_option auto ->
  List.NoDup (map fst (members module)) ->
  __all__ module = None ->
  In own (members module) ->
  isclass (snd own) || isfunction (snd own) = true ->
  defined_public mn own = true ->
  exists names,
    autolist_names auto mn module = Done names /\
    forall n, In n names ->
      exists o, In (n, o) (members module) /\
                __module__ o = mn /\ startswith n "_" = false.
Proof.
  intros Hauto Hnd Hall Hown Hkind Hpub.
  set (cls := List.filter (defined_public mn) (getmembers module isclass)).
  set (fns := List.filter (defined_public mn) (getmembers module isfunction)).
  assert (Hin : forall m, In m (cls ++ fns) ->
                  In m (members module) /\ defined_public mn m = true).
  { intros m Hm. apply in_app_or in Hm.
    destruct Hm as [Hm | Hm]; apply filter_In in Hm as [Hm Hd];
      apply filter_In in Hm as [Hm _]; split; assumption. }
  assert (Hne : cls ++ fns <> []).
  { intros Hnil. apply app_eq_nil in Hnil as [Hc Hf].
    apply orb_true_iff in Hkind as [Hk | Hk].
    - assert (Hx : In own cls)
        by (apply filter_In; split; [apply filter_In; split|]; assumption).
      rewrite Hc in Hx. destruct Hx.
    - assert (Hx : In own fns)
        by (apply filter_In; split; [apply filter_In; split|]; assumption).
      rewrite Hf in Hx. destruct Hx. }
  assert (Hnames : public_names mn module = map fst (cls ++ fns)).
  { unfold public_names. rewrite Hall. cbv zeta. fold cls fns.
    rewrite <- map_app. destruct (cls ++ fns); [congruence | reflexivity]. }
  eexists. split.
  - apply (autolist_names_members auto mn module (cls ++ fns) Hauto Hnd);
      [intros m Hm; apply Hin, Hm | exact Hnames].
  - intros n Hn. apply in_map_iff in Hn as ([n' o] & <- & Hn).
    apply filter_In in Hn as [Hn _]. apply filter_In in Hn as [Hn _].
    destruct (Hin _ Hn) as [Hmem Hd]. exists o. split; [exact Hmem|].
    unfold defined_public in Hd. apply andb_true_iff in Hd as [Hmod Hpriv].
    apply bool_decide_eq_true in Hmod. apply negb_true_iff in Hpriv.
    split; assumption.
Qed.

(** X16. A module without [__all__] that defines no public class or function
    of its own: the directive falls back on all members, so [autolist]
    lists every documented class and function the module holds, the
    imported and the private ones too. *)
Theorem nothing_public_lists_all_members (mn : option string) module :
  List.NoDup (map fst (members module)) ->
  __all__ module = None ->
  (forall m, In m (members module) ->
     isclass (snd m) || isfunction (snd m) = true -> defined_public mn m = false) ->
  autolist_names "autolist" mn module =
    Done (map fst
            (List.filter
               (fun m => bool_decide (__doc__ (snd m) <> None) &&
                         (isclass (snd m) || isfunction (snd m)))
               (members module))).
Proof.
  intros Hnd Hall Hnone.
  assert (Hempty : forall pred : object -> bool,
            (forall o, pred o = true -> isclass o || isfunction o = true) ->
            List.filter (defined_public mn) (getmembers module pred) = []).
  { intros pred Hpred. unfold getmembers.
    induction (members module) as [|m ms IH]; [reflexivity|]. simpl.
    assert (IH' : List.filter (defined_public mn)
                    (List.filter (fun m => pred (snd m)) ms) = [])
      by (apply IH; [apply List.NoDup_cons_iff in Hnd; apply Hnd |
                     intros m' Hm'; apply Hnone; right; exact Hm']).
    destruct (pred (snd m)) eqn:Hp; [|exact IH'].
    simpl. rewrite (Hnone m (or_introl eq_refl) (Hpred _ Hp)). exact IH'. }
  assert (Hnames : public_names mn module = map fst (members module)).
  { unfold public_names. rewrite Hall. cbv zeta.
    rewrite (Hempty isclass) by (intros o ->; reflexivity).
    rewrite (Hempty isfunction) by (intros o ->; apply orb_true_r).
    simpl. unfold getmembers. rewrite filter_all. reflexivity. }
  rewrite (autolist_names_members "autolist" mn module (members module));
    [|left; reflexivity | exact Hnd | auto | exact Hnames].
  f_equal. f_equal. clear.
  induction (members module) as [|m ms IH]; [reflexivity|]. simpl.
  destruct (bool_decide (__doc__ (snd m) <> None)); simpl; [|exact IH].
  unfold wanted at 1. simpl.
  destruct (isclass (snd m) || isfunction (snd m)); [f_equal|]; exact IH.
Qed.

End Autolist.

(** ** The directive's run *)

Section DirectiveRun.
Import Conf.
Context {Nodes : Type}.
Variable import_module : option string -> result pymodule.
Variable Autosummary_run : directive -> result Nodes.

Local Abbreviation round := (autolist import_module).
Local Abbreviation run := (Conf.run import_module Autosummary_run).

Ltac unfold_result := unfold mbind, result_bind, mret, result_ret in *.

(** The first filter is the same under every option, so the names come out
    under all three options or under none. *)
Lemma autolist_names_any (auto auto' : string) (mn : option string) (module : pymodule)
    (names : list string) :
  is_option auto -> is_option auto' ->
  autolist_names auto mn module = Done names ->
  exists names', autolist_names auto' mn module = Done names'.
Proof.
  intros Hauto Hauto'.
  rewrite (autolist_names_steps _ _ _ Hauto), (autolist_names_steps _ _ _ Hauto').
  unfold_result.
  destruct (comprehension _ (public_names mn module)) as [l1|e] eqn:H1; [|discriminate].
  intros _. apply comprehension_total. intros n Hn.
  apply comprehension_Done in H1 as (_ & Hdoc & _).
  destruct (Hdoc n Hn) as [_ Hd]. unfold_result.
  destruct (getattr module n) as [o|e]; [eauto | discriminate].
Qed.

Lemma round_absent (self : directive) (auto : string) :
  options self !! auto = None -> round self auto = Done self.
Proof.
  intros Hopt. unfold autolist. rewrite Hopt.
  rewrite bool_decide_eq_false_2 by (intros [? [=]]). reflexivity.
Qed.

Lemma round_present (self : directive) (auto : string) (module : pymodule)
    (names : list string) :
  is_Some (options self !! auto) ->
  import_module (py_module self) = Done module ->
  autolist_names auto (py_module self) module = Done names ->
  round self auto = Done (set_content self names).
Proof.
  intros Hopt Himport Hnames. unfold autolist.
  rewrite bool_decide_eq_true_2 by exact Hopt. cbv zeta. unfold_result.
  rewrite Himport, Hnames. reflexivity.
Qed.

(** A round that can only succeed: the module imports and the names come
    out under some option. *)
Lemma round_Done (self : directive) (auto auto0 : string) (module : pymodule)
    (names0 : list string) :
  is_option auto -> is_option auto0 ->
  import_module (py_module self) = Done module ->
  autolist_names auto0 (py_module self) module = Done names0 ->
  exists self',
    round self auto = Done self' /\
    options self' = options self /\ py_module self' = py_module self.
Proof.
  intros Hauto Hauto0 Himport Hnames0.
  destruct (options self !! auto) as [v|] eqn:Hopt.
  - destruct (autolist_names_any _ auto _ _ _ Hauto0 Hauto Hnames0) as [names Hnames].
    exists (set_content self names). split; [|split; reflexivity].
    apply (round_present self auto module names); [rewrite Hopt; eauto | assumption..].
  - exists self. split; [apply round_absent, Hopt | split; reflexivity].
Qed.

(** X17. [run] with several of the options: the last one in the order
    [autolist], [autolist-classes], [autolist-functions] decides the content
    handed to the base class, whatever the content was and whichever options
    come before; without any of the three the directive is the base
    directive. *)
Theorem run_last_option_decides (self : directive) :
  (options self !! "autolist" = None ->
   options self !! "autolist-classes" = None ->
   options self !! "autolist-functions" = None ->
   run self = Autosummary_run self) /\
  (forall (auto : string) (module : pymodule) (names : list string),
     (auto = "autolist-functions" \/
      auto = "autolist-classes" /\ options self !! "autolist-functions" = None \/
      auto = "autolist" /\ options self !! "autolist-classes" = None /\
        options self !! "autolist-functions" = None) ->
     is_Some (options self !! auto) ->
     import_module (py_module self) = Done module ->
     autolist_names auto (py_module self) module = Done names ->
     run self = Autosummary_run (set_content self names)).
Proof.
  split.
  - intros H1 H2 H3. unfold Conf.run. simpl. unfold_result.
    rewrite (round_absent _ _ H1), (round_absent _ _ H2), (round_absent _ _ H3).
    reflexivity.
  - intros auto module names Hwhich Hopt Himport Hnames.
    assert (Hauto : is_option auto)
      by (destruct Hwhich as [-> | [[-> _] | [-> _]]];
          [right; right | right; left | left]; reflexivity).
    unfold Conf.run. simpl. unfold_result.
    destruct Hwhich as [-> | [[-> Hnone] | [-> [Hnone1 Hnone2]]]].
    + destruct (round_Done self "autolist" _ module names
                  (or_introl eq_refl) Hauto Himport Hnames) as (s1 & -> & Ho1 & Hm1).
      destruct (round_Done s1 "autolist-classes" "autolist-functions" module names
                  (or_intror (or_introl eq_refl)) Hauto)
        as (s2 & -> & Ho2 & Hm2); [rewrite Hm1; assumption..|].
      rewrite (round_present s2 "autolist-functions" module names);
        [|rewrite Ho2, Ho1; exact Hopt | rewrite Hm2, Hm1; assumption..].
      unfold set_content. rewrite Ho2, Ho1, Hm2, Hm1. reflexivity.
    + destruct (round_Done self "autolist" _ module names
                  (or_introl eq_refl) Hauto Himport Hnames) as (s1 & -> & Ho1 & Hm1).
      rewrite (round_present s1 "autolist-classes" module names);
        [|rewrite Ho1; exact Hopt | rewrite Hm1; assumption..].
      rewrite round_absent by (simpl; rewrite Ho1; exact Hnone).
      unfold set_content. rewrite Ho1, Hm1. reflexivity.
    + rewrite (round_present self "autolist" module names) by assumption.
      rewrite !round_absent by assumption. reflexivity.
Qed.

End DirectiveRun.

(** ** The further properties on sample objects *)

Section MoreInstances.
Import NoImprovementHandler Run Shape Example Sample Conf.

(** Three scores of 0.9 after a best score of 1.0, patience 2: after the
    second of them the counter is 2 and the call ends with [stop_function]. *)
Lemma stalled_run_second_call :
  counter (at_state (scripted 2 0 false) 2 (Some 1.0%float)) = 0 + Z.of_nat 2 /\
  best_score (at_state (scripted 2 0 false) 2 (Some 1.0%float)) = Some 1.0%float /\
  (decision_of (at_state (scripted 2 0 false) 2 (Some 1.0%float)) = Limit <->
   patience (at_state (scripted 2 0 false) 0 (Some 1.0%float)) <= 0 + Z.of_nat 2).
Proof.
  apply (stalled_run [0.9; 0.9; 0.9]%float
           (at_state (scripted 2 0 false) 0 (Some 1.0%float)) 1.0%float 1).
  - reflexivity.
  - repeat constructor; right; reflexivity.
  - reflexivity.
Defined.

(** 1.2, 1.4, 1.6 after 1.0 with [min_delta=0.5]: three calls, counter 3. *)
Lemma drifting_run_three_calls :
  counter (at_state (scripted 3 0.5 false) 3 (Some 1.6%float)) = 0 + Z.of_nat 3 /\
  best_score (at_state (scripted 3 0.5 false) 3 (Some 1.6%float))
    = [1.2; 1.4; 1.6]%float !! 2%nat.
Proof.
  apply (drifting_run [1.2; 1.4; 1.6]%float
           (at_state (scripted 3 0.5 false) 0 (Some 1.0%float)) 1.0%float 2).
  - reflexivity.
  - reflexivity.
  - simpl. repeat split; reflexivity.
  - reflexivity.
Defined.

(** The third call of a fresh handler of patience 3 cannot be the limit. *)
Lemma fresh_run_counter_bounds_third_call :
  0 <= counter (at_state (scripted 3 0 false) 2 (Some 1.0%float)) <= Z.of_nat 2 /\
  decision_of (at_state (scripted 3 0 false) 2 (Some 1.0%float)) = Continue.
Proof.
  assert (Hinit : __init__ 3 (Is next_score) (Is record_pass) (Is record_stop)
                    (Is "trainer") 0%float false = Ok (scripted 3 0 false))
    by reflexivity.
  assert (Hfeed : feed (scripted 3 0 false) [1.0; 0.9; 0.9]%float !! 2%nat
                  = Some (at_state (scripted 3 0 false) 2 (Some 1.0%float)))
    by reflexivity.
  destruct (fresh_run_counter_bounds _ _ _ _ _ _ _ _ _ _ _ Hinit Hfeed)
    as [Hbounds Hdecision].
  split; [exact Hbounds | apply Hdecision; reflexivity].
Defined.

Lemma best_score_is_observed_second_call :
  exists s : float,
    best_score (at_state (scripted 3 0 false) 1 (Some 1.0%float)) = Some s /\
    (s ∈ take 2 [1.0; 0.9; 0.9]%float \/ best_score (scripted 3 0 false) = Some s).
Proof.
  apply (best_score_is_observed [1.0; 0.9; 0.9]%float (scripted 3 0 false) 1).
  reflexivity.
Defined.

(** A handler at its limit gets the score 1.5 after a best score of 1.0. *)
Lemma improvement_after_limit_recovers :
  __call__ (at_state (scripted 3 0 false) 3 (Some 1.0%float)) "evaluator"
    (script [1.5%float]) =
    (Ok tt, at_state (scripted 3 0 false) 0 (Some 1.5%float),
     {| pending := []; trace := [Scored "evaluator"; Passed "trainer"] |}).
Proof.
  rewrite (improvement_after_limit
             (at_state (scripted 3 0 false) 3 (Some 1.0%float)) "evaluator"
             (script [1.5%float])
             {| pending := []; trace := [Scored "evaluator"] |} 1.5%float 1.0%float);
    reflexivity || (simpl; lia).
Defined.

Lemma load_state_dict_missing_best_score :
  fst (load_state_dict [] only_counter (scripted 3 0 false))
    = Raise (KeyError "best_score") /\
  counter (snd (load_state_dict [] only_counter (scripted 3 0 false))) = 5 /\
  best_score (snd (load_state_dict [] only_counter (scripted 3 0 false))) = None.
Proof.
  apply (proj2 (load_state_dict_missing_key [] only_counter (scripted 3 0 false)
                  (fun k (Hk : In k []) => match Hk with end)) 5);
    reflexivity.
Defined.

Lemma load_then_state_dict_checkpoint :
  items (state_dict (at_state (scripted 3 0 false) (-7) (Some 2.5%float))) !! "counter"
    = items checkpoint !! "counter" /\
  items (state_dict (at_state (scripted 3 0 false) (-7) (Some 2.5%float))) !! "best_score"
    = items checkpoint !! "best_score" /\
  forall k : string, k <> "counter" -> k <> "best_score" ->
    items (state_dict (at_state (scripted 3 0 false) (-7) (Some 2.5%float))) !! k = None.
Proof.
  apply (load_then_state_dict [] checkpoint (scripted 3 0 false)).
  apply load_state_dict_verbatim; [intros k [] | reflexivity..].
Defined.

(** A stopper at counter 1 and best score 1.0 gets the score 0.5: the
    counter reaches the patience of 2, the line is logged and the trainer
    told to terminate. *)
Lemma early_stopping_call_terminates :
  EarlyStopping.__call__ (stopper 1 (Some 1.0%float)) "evaluator" [] =
    (Ok tt, stopper 2 (Some 1.0%float),
     ["log: EarlyStopping: Stop training"; "terminate trainer"]).
Proof.
  destruct (early_stopping_call log_info log_terminate (stopper 1 (Some 1.0%float))
              "evaluator" [] [] 0.5%float) as [_ Hlimit].
  - repeat split. simpl. lia.
  - reflexivity.
  - rewrite Hlimit by (vm_compute; discriminate). reflexivity.
Defined.

Lemma early_stopping_bound_invariant_stopper :
  Bound.bound log_info log_terminate
    (snd (fst (EarlyStopping.__call__ (stopper 1 (Some 1.0%float)) "evaluator" []))).
Proof.
  apply (proj1 (proj2 (early_stopping_bound_invariant log_setup_logger
                         log_info log_terminate))).
  repeat split. simpl. lia.
Defined.

(** [EarlyStopping] with a score function that is a string. *)
Lemma early_stopping_init_errors_not_callable :
  EarlyStopping.__init__ log_setup_logger log_info log_terminate
    2 (IsNot (PyStr "loss")) (Is "trainer") 0%float false [] =
    (Raise (TypeError "Argument score_function should be a function."), []) /\
  ((exists self w',
      EarlyStopping.__init__ log_setup_logger log_info log_terminate
        2 (Is (constant_score 0.5%float)) (Is "trainer") 0%float false [] = (Ok self, w'))).
Proof.
  split.
  - reflexivity.
  - apply (proj2 (early_stopping_init_errors log_setup_logger log_info log_terminate
                    2 (Is (constant_score 0.5%float)) (Is "trainer") 0%float false [])).
    repeat split. lia.
Defined.

(** Two events and one score. *)
Lemma run_out_of_scores_second_event :
  calls (scripted 3 0 false) (["evaluator"] ++ "evaluator" :: [])
    {| pending := [1.0%float]; trace := [] |} =
    (feed (scripted 3 0 false) [1.0%float]
       ++ [List.last (feed (scripted 3 0 false) [1.0%float]) (scripted 3 0 false)],
     Raise StopIteration,
     {| pending := [];
        trace := [] ++ marks (scripted 3 0 false) ["evaluator"] [1.0%float] |}).
Proof.
  apply (run_out_of_scores [1.0%float] (scripted 3 0 false) ["evaluator"] "evaluator" []);
    reflexivity.
Defined.

Ltac distinct_names :=
  repeat (apply List.NoDup_cons; [simpl; intuition discriminate|]); apply List.NoDup_nil.

(** The classes of the handlers module, by its [__all__]. *)
Lemma autolist_names_sound_early_stopping :
  exists o, getattr early_stopping "EarlyStopping" = Done o /\ __doc__ o <> None /\
            (isclass o = true \/ isfunction o = true) /\
            ("autolist-classes" = "autolist-classes" -> isclass o = true) /\
            ("autolist-classes" = "autolist-functions" -> isfunction o = true).
Proof.
  apply (autolist_names_sound "autolist-classes" (Some "ignite.handlers.early_stopping")
           early_stopping ["NoImprovementHandler"; "EarlyStopping"]).
  - right. left. reflexivity.
  - reflexivity.
  - right. left. reflexivity.
Defined.

Lemma exports_govern_early_stopping :
  ["NoImprovementHandler"; "EarlyStopping"]
    `sublist_of` ["NoImprovementHandler"; "EarlyStopping"] /\
  forall mn' : option string,
    autolist_names "autolist" mn' early_stopping
      = Done ["NoImprovementHandler"; "EarlyStopping"].
Proof.
  apply (exports_govern "autolist" None early_stopping
           ["NoImprovementHandler"; "EarlyStopping"]); reflexivity.
Defined.

Lemma missing_export_raises_broken :
  autolist_names "autolist" (Some "broken") broken = Raised (AttributeError "Missing").
Proof.
  apply (missing_export_raises "autolist" (Some "broken") broken ["Engine"] ["Thing"]).
  - reflexivity.
  - intros n [<- | []]. left. reflexivity.
  - simpl. intuition discriminate.
Defined.

Lemma own_public_names_only_plain :
  exists names,
    autolist_names "autolist" (Some "plain") plain = Done names /\
    forall n, In n names ->
      exists o, In (n, o) (members plain) /\
                __module__ o = Some "plain" /\ startswith n "_" = false.
Proof.
  apply (own_public_names_only "autolist" (Some "plain") plain
           ("Thing", class_of "plain" "A thing")).
  - left. reflexivity.
  - simpl. distinct_names.
  - reflexivity.
  - simpl. auto.
  - reflexivity.
  - reflexivity.
Defined.

(** In a module that only imports, [autolist] lists the imported class and
    the imported private function. *)
Lemma nothing_public_lists_all_members_reexports :
  autolist_names "autolist" (Some "reexports") reexports = Done ["Engine"; "_setup"].
Proof.
  rewrite (nothing_public_lists_all_members (Some "reexports") reexports).
  - reflexivity.
  - simpl. distinct_names.
  - reflexivity.
  - intros m [<- | [<- | [<- | []]]]; intros; try reflexivity; discriminate.
Defined.

(** [autolist] and [autolist-functions] together in the module [plain]: the
    functions win, and the content written by hand is replaced. *)
Lemma run_last_option_decides_two_options :
  Conf.run (fun _ => Done plain) (fun self => Done (content self)) two_options
    = Done ["helper"].
Proof.
  rewrite (proj2 (run_last_option_decides (fun _ => Done plain)
                    (fun self => Done (content self)) two_options)
             "autolist-functions" plain ["helper"]).
  - reflexivity.
  - left. reflexivity.
  - vm_compute. eauto.
  - reflexivity.
  - reflexivity.
Defined.

End MoreInstances.

(** ** Rounding in the comparison *)

Section Rounding.
Import NoImprovementHandler Run Example Exact.


End Rounding.
